(** * Smart-bike telemetry pipeline: ingestion consumer and distribution bridge

    A shallow embedding of
    - [sensors-backend-kafka/src/services/sensor-data-processors/EnhancedKafkaFeed.ts]
      (topic router, validator / quality scorer, retrying persistence writer,
      dead-letter routing, per-message consumer callback), and
    - [websocket-kafka-bridge/src/server.ts]
      (connection registry, subscription handling, fan-out, stale-connection
      reaper),
    together with the properties of the specification that concern them. *)

From Stdlib Require Import Ascii String Floats FloatAxioms SpecFloat ZArith Uint63.
From stdpp Require Import base option list gmap strings fin_maps pretty.

Set Warnings "-register-all".

Local Open Scope string_scope.
Local Open Scope list_scope.
Local Open Scope Z_scope.

(** ** JavaScript values

    Payloads are whatever [JSON.parse] returns, and the validator is written
    against [any]; numbers are IEEE-754 doubles. *)

Inductive JSValue : Type :=
| JUndefined
| JNull
| JBool (b : bool)
| JNumber (x : float)
| JString (s : string)
| JArray (items : list JSValue)
| JObject (props : list (string * JSValue)).

(** Errors that travel through [throw] / promise rejection. *)
Inductive JSError : Type :=
| TypeError (what : string)
| SyntaxError (what : string)
| Error (message : string).

(** Built-ins of the JavaScript runtime that the sources call and that are
    not part of the repository. *)
Record JSRuntime : Type := {
  NumberToString : float → string;          (* Number::toString, radix 10 *)
  StringToNumber : string → float;          (* StringToNumber of ToNumber *)
  Math_floor : float → float;
  JSON_parse : string → JSError + JSValue;  (* SyntaxError on malformed text *)
}.

Module JS.

Definition NaN : float := PrimFloat.nan.

(** Own-property lookup in the property list of a parsed object. *)
Fixpoint assoc (k : string) (props : list (string * JSValue)) : option JSValue :=
  match props with
  | [] => None
  | (k', v) :: rest => if String.eqb k k' then Some v else assoc k rest
  end.

(** [v.k] for the property names the sources read from a payload ([value],
    [unitName], [timestamp], [deviceId], [bikeId], [metadata], [reportedAt],
    [messageId], [version]): none of them is an array index, [length] or a
    member of a built-in prototype, so the read yields the own property of
    an object and [undefined] on every other non-nullish value.  Reading a
    property of [null] or [undefined] throws a TypeError. *)
Definition Get (v : JSValue) (k : string) : JSError + JSValue :=
  match v with
  | JUndefined | JNull => inl (TypeError ("Cannot read properties of null or undefined: " +:+ k))
  | JObject props => inr (default JUndefined (assoc k props))
  | _ => inr JUndefined
  end.

Definition typeof_number (v : JSValue) : bool :=
  match v with JNumber _ => true | _ => false end.

Definition typeof_string (v : JSValue) : bool :=
  match v with JString _ => true | _ => false end.

(** ToBoolean: the falsy values are [undefined], [null], [false], [±0],
    [NaN] and the empty string. *)
Definition ToBoolean (v : JSValue) : bool :=
  match v with
  | JUndefined | JNull => false
  | JBool b => b
  | JNumber x => negb (PrimFloat.is_zero x || PrimFloat.is_nan x)
  | JString s => negb (String.eqb s "")
  | JArray _ | JObject _ => true
  end.

(** Strict equality against a string constant ([x === 'control'],
    [data.unitName !== unit]). *)
Definition strictEqString (v : JSValue) (s : string) : bool :=
  match v with JString s' => String.eqb s' s | _ => false end.

Section Coercions.
Context (rt : JSRuntime).

(** ToString.  A parsed object has no callable own members: if it carries
    an own [toString] key the inherited method is shadowed by a
    non-callable value and OrdinaryToPrimitive throws (the inherited
    [valueOf] returns the object itself); otherwise
    [Object.prototype.toString] answers.  An array goes through
    [Array.prototype.join], which prints [undefined] and [null] as the
    empty string. *)
Fixpoint ToString (v : JSValue) : JSError + string :=
  match v with
  | JUndefined => inr "undefined"
  | JNull => inr "null"
  | JBool b => inr (if b then "true" else "false")
  | JNumber x => inr (NumberToString rt x)
  | JString s => inr s
  | JArray items =>
      let element (x : JSValue) : JSError + string :=
        match x with
        | JUndefined | JNull => inr ""
        | _ => ToString x
        end in
      (fix join (l : list JSValue) : JSError + string :=
         match l with
         | [] => inr ""
         | [x] => element x
         | x :: rest =>
             match element x with
             | inl e => inl e
             | inr s =>
                 match join rest with
                 | inl e => inl e
                 | inr s' => inr (s +:+ "," +:+ s')
                 end
             end
         end) items
  | JObject props =>
      match assoc "toString" props with
      | Some _ => inl (TypeError "Cannot convert object to primitive value")
      | None => inr "[object Object]"
      end
  end.

(** ToNumber; objects and arrays first go through ToPrimitive, whose
    outcome for parsed values is the one of [ToString]. *)
Definition ToNumber (v : JSValue) : JSError + float :=
  match v with
  | JUndefined => inr NaN
  | JNull => inr 0%float
  | JBool b => inr (if b then 1%float else 0%float)
  | JNumber x => inr x
  | JString s => inr (StringToNumber rt s)
  | JArray _ | JObject _ =>
      match ToString v with
      | inl e => inl e
      | inr s => inr (StringToNumber rt s)
      end
  end.

(** [v < bound] and [v > bound] for a numeric [bound]: the operands are
    never both strings, so the comparison is numeric (false on NaN). *)
Definition lessThan (v : JSValue) (bound : float) : JSError + bool :=
  match ToNumber v with
  | inl e => inl e
  | inr x => inr (PrimFloat.ltb x bound)
  end.

Definition greaterThan (v : JSValue) (bound : float) : JSError + bool :=
  match ToNumber v with
  | inl e => inl e
  | inr x => inr (PrimFloat.ltb bound x)
  end.

End Coercions.

(** [String.prototype.split] with a one-character separator: the result
    is never empty, and the empty string splits into one empty segment. *)
Fixpoint split (sep : Ascii.ascii) (s : string) : list string :=
  match s with
  | EmptyString => [EmptyString]
  | String c rest =>
      if Ascii.eqb c sep then EmptyString :: split sep rest
      else match split sep rest with
           | seg :: segs => String c seg :: segs
           | [] => [String c EmptyString]
           end
  end.

(** [String.prototype.startsWith]. *)
Definition startsWith (s p : string) : bool := String.prefix p s.

(** [Math.pow(2, n)] for a natural number [n]: the exact power of two,
    [Infinity] from [2^1024] on. *)
Fixpoint pow2 (n : nat) : float :=
  match n with
  | O => 1%float
  | S n' => (2 * pow2 n')%float
  end.

(** A segment: a string without dot. *)
Fixpoint dotFree (s : string) : bool :=
  match s with
  | EmptyString => true
  | String c rest => negb (Ascii.eqb c ".") && dotFree rest
  end.

End JS.

(** ** The ingestion consumer (EnhancedKafkaFeed.ts) *)

Module Feed.

(** [DeviceType] is declared in [models/device], outside the files at
    hand; the consumer only passes its members through. *)
Inductive DeviceType : Type :=
| heartRate | cadence | speed | power | resistance | incline | fan.

Record ValidationRules : Type := {
  min : float;
  max : float;
  unit : string;
}.

Record DeviceEntry : Type := {
  type : DeviceType;
  validationRules : ValidationRules;
}.

Definition ENHANCED_DEVICE_TYPE_MAP : list (string * DeviceEntry) :=
  [ ("heartrate",
      {| type := heartRate;
         validationRules := {| min := 30; max := 220; unit := "bpm" |} |});
    ("cadence",
      {| type := cadence;
         validationRules := {| min := 0; max := 200; unit := "rpm" |} |});
    ("speed",
      {| type := speed;
         validationRules := {| min := 0; max := 80; unit := "kmh" |} |});
    ("power",
      {| type := power;
         validationRules := {| min := 0; max := 2000; unit := "watts" |} |});
    ("resistance",
      {| type := resistance;
         validationRules := {| min := 0; max := 100; unit := "percent" |} |});
    ("incline",
      {| type := incline;
         validationRules := {| min := -50; max := 50; unit := "percent" |} |});
    ("fan",
      {| type := fan;
         validationRules := {| min := 0; max := 100; unit := "percent" |} |}) ].

(** The table is an object literal, so a read [MAP[key]] that misses the
    own keys continues along the prototype chain.  These are the string
    keys of [Object.prototype]; each of them holds a function or, for
    [__proto__], the prototype object: all truthy, none with a [type] or
    [validationRules] member. *)
Definition Object_prototype_keys : list string :=
  [ "constructor"; "hasOwnProperty"; "isPrototypeOf"; "propertyIsEnumerable";
    "toLocaleString"; "toString"; "valueOf"; "__proto__";
    "__defineGetter__"; "__defineSetter__"; "__lookupGetter__";
    "__lookupSetter__" ].

(** What [ENHANCED_DEVICE_TYPE_MAP[deviceTypeStr]] evaluates to when it is
    not [undefined]. *)
Inductive DeviceConfig : Type :=
| OwnEntry (entry : DeviceEntry)
| InheritedMember (key : string).

Fixpoint ownEntry (k : string) (table : list (string * DeviceEntry)) : option DeviceEntry :=
  match table with
  | [] => None
  | (k', e) :: rest => if String.eqb k k' then Some e else ownEntry k rest
  end.

Definition inList (k : string) (l : list string) : bool :=
  existsb (String.eqb k) l.

Definition lookupDeviceConfig (deviceTypeStr : string) : option DeviceConfig :=
  match ownEntry deviceTypeStr ENHANCED_DEVICE_TYPE_MAP with
  | Some e => Some (OwnEntry e)
  | None =>
      if inList deviceTypeStr Object_prototype_keys
      then Some (InheritedMember deviceTypeStr)
      else None
  end.

(** [deviceConfig.type]: [undefined] on an inherited member. *)
Definition configType (c : DeviceConfig) : option DeviceType :=
  match c with
  | OwnEntry e => Some (type e)
  | InheritedMember _ => None
  end.

Record TopicInfo : Type := {
  deviceId : string;
  deviceType : option DeviceType;
  deviceConfig : DeviceConfig;
  isControlTopic : bool;
}.

(** [topicParts[i]], [undefined] past the end. *)
Definition part (topicParts : list string) (i : nat) : JSValue :=
  match topicParts !! i with
  | Some s => JString s
  | None => JUndefined
  end.

Definition parseEnhancedKafkaTopic (topic : string) : option TopicInfo :=
  let topicParts := JS.split "." topic in
  match topicParts with
  | p0 :: deviceId :: deviceTypeStr :: _ =>
      if String.eqb p0 "bike" then
        let isControlTopic := JS.strictEqString (part topicParts 3) "control" in
        match lookupDeviceConfig deviceTypeStr with
        | Some deviceConfig =>
            Some {| deviceId := deviceId;
                    deviceType := configType deviceConfig;
                    deviceConfig := deviceConfig;
                    isControlTopic := isControlTopic |}
        | None => None
        end
      else None
  | _ => None
  end.

(** *** Validator / quality scorer *)

(** The entries pushed on the [errors] array, with the values interpolated
    into their text. *)
Inductive ValidationError : Type :=
| InvalidValueField       (* 'Invalid or missing value field' *)
| InvalidUnitNameField    (* 'Invalid or missing unitName field' *)
| ValueOutOfRange (value : string) (rules : ValidationRules)
| UnitMismatch (expected got : string)
| TimestampOutOfWindow    (* 'Message timestamp is too old or in the future' *)
| ValidationException (error : JSError).  (* `Validation error: ${error}` *)

(** The two locals the validator mutates: [errors] and [qualityScore]. *)
Record Locals : Type := {
  var_errors : list ValidationError;
  var_qualityScore : Z;
}.

(** A computation inside the [try] block: it runs on the locals and either
    completes normally or throws; the locals survive a throw because the
    [catch] clause still reads [errors]. *)
Inductive Completion (A : Type) : Type :=
| Normal (a : A) (s : Locals)
| Abrupt (e : JSError) (s : Locals).
Arguments Normal {A} a s.
Arguments Abrupt {A} e s.

Definition Try (A : Type) : Type := Locals → Completion A.

#[global] Instance Try_ret : MRet Try := λ A a s, Normal a s.
#[global] Instance Try_bind : MBind Try := λ A B f m s,
  match m s with
  | Normal a s' => f a s'
  | Abrupt e s' => Abrupt e s'
  end.

Definition pure {A : Type} (a : A) : Try A := mret a.

(** An expression whose evaluation may throw. *)
Definition eval {A : Type} (x : JSError + A) : Try A := λ s,
  match x with
  | inl e => Abrupt e s
  | inr a => Normal a s
  end.

(** [errors.push(e)] *)
Definition push (e : ValidationError) : Try () := λ s,
  Normal tt {| var_errors := var_errors s ++ [e]; var_qualityScore := var_qualityScore s |}.

(** [qualityScore -= n] *)
Definition deduct (n : Z) : Try () := λ s,
  Normal tt {| var_errors := var_errors s; var_qualityScore := var_qualityScore s - n |}.

Definition readScore : Try Z := λ s, Normal (var_qualityScore s) s.

(** [if (c) { body }] *)
Definition when (c : bool) (body : Try ()) : Try () :=
  if c then body else pure tt.

(** [isNaN(x)] on a value already known to be a number. *)
Definition isNaN (v : JSValue) : bool :=
  match v with JNumber x => PrimFloat.is_nan x | _ => false end.

(** [new Date(v)] or [new Date()], kept symbolic. *)
Inductive DateValue : Type :=
| DateOf (v : JSValue)
| DateNow (now : float).

Record ProcessingMetrics : Type := {
  receivedAt : DateValue;
  processedAt : DateValue;
}.

Record IEnhancedKafkaDeviceData : Type := {
  data_spread : JSValue;                 (* ...data *)
  data_value : float;
  data_timestamp : JSValue;
  data_reportedAt : DateValue;
  data_metadata : JSValue;
  data_messageId : JSValue;
  data_version : JSValue;
  data_processingMetrics : ProcessingMetrics;
  data_qualityScore : Z;
  data_anomalyDetected : bool;
}.

Record ValidationResult : Type := {
  isValid : bool;
  data : option IEnhancedKafkaDeviceData;
  qualityScore : Z;
  errors : list ValidationError;
}.

Section Validator.
Context (rt : JSRuntime).
(** [Date.now()] during the call, and the identifier generated from the
    clock and [Math.random()] for a message that carries none. *)
Context (now : float) (generatedId : string).

(** [deviceConfig.validationRules] followed by the destructuring
    [const { min, max, unit } = ...], which throws on [undefined]. *)
Definition rulesOf (deviceConfig : DeviceConfig) : JSError + ValidationRules :=
  match deviceConfig with
  | OwnEntry e => inr (validationRules e)
  | InheritedMember _ =>
      inl (TypeError "Cannot destructure property 'min' of undefined")
  end.

(** Lines 141-173: the five scored checks. *)
Definition checks (raw : JSValue) (deviceConfig : DeviceConfig) : Try () :=
  (* Required field validation *)
  value ← eval (JS.Get raw "value");
  _ ← when (negb (JS.typeof_number value) || isNaN value)
        (_ ← push InvalidValueField; deduct 50);
  unitName ← eval (JS.Get raw "unitName");
  _ ← when (negb (JS.ToBoolean unitName) || negb (JS.typeof_string unitName))
        (_ ← push InvalidUnitNameField; deduct 30);
  (* Value range validation *)
  rules ← eval (rulesOf deviceConfig);
  below ← eval (JS.lessThan rt value (min rules));
  outside ← (if (below : bool) then pure true else eval (JS.greaterThan rt value (max rules)));
  _ ← when outside
        (shown ← eval (JS.ToString rt value);
         _ ← push (ValueOutOfRange shown rules); deduct 40);
  (* Unit consistency check *)
  _ ← when (negb (JS.strictEqString unitName (unit rules)))
        (shown ← eval (JS.ToString rt unitName);
         _ ← push (UnitMismatch (unit rules) shown); deduct 20);
  (* Timestamp validation *)
  timestamp ← eval (JS.Get raw "timestamp");
  messageTime ← (if JS.ToBoolean timestamp
                 then t ← eval (JS.ToNumber rt timestamp); pure (t * 1000)%float
                 else pure now);
  let timeDiff := PrimFloat.abs (now - messageTime)%float in
  when (PrimFloat.ltb 300000 timeDiff)
    (_ ← push TimestampOutOfWindow; deduct 10).

(** Lines 175-178: data completeness scoring. *)
Definition completeness (raw : JSValue) : Try () :=
  deviceId ← eval (JS.Get raw "deviceId");
  _ ← when (negb (JS.ToBoolean deviceId)) (deduct 5);
  bikeId ← eval (JS.Get raw "bikeId");
  _ ← when (negb (JS.ToBoolean bikeId)) (deduct 5);
  metadata ← eval (JS.Get raw "metadata");
  when (negb (JS.ToBoolean metadata)) (deduct 2).

(** [a || b] on values. *)
Definition orElse (a b : JSValue) : JSValue :=
  if JS.ToBoolean a then a else b.

(** Lines 180-194: the enhanced record.  [Number(data.value)] and
    [new Date(data.reportedAt)] convert their argument and may throw. *)
Definition enhance (raw : JSValue) : Try IEnhancedKafkaDeviceData :=
  value ← eval (JS.Get raw "value");
  number ← eval (JS.ToNumber rt value);
  timestamp ← eval (JS.Get raw "timestamp");
  reportedAt ← eval (JS.Get raw "reportedAt");
  date ← (if JS.ToBoolean reportedAt
          then _ ← eval (JS.ToString rt reportedAt); pure (DateOf reportedAt)
          else pure (DateNow now));
  metadata ← eval (JS.Get raw "metadata");
  messageId ← eval (JS.Get raw "messageId");
  version ← eval (JS.Get raw "version");
  score ← readScore;
  pure {| data_spread := raw;
          data_value := number;
          data_timestamp := orElse timestamp (JNumber (Math_floor rt (now / 1000)%float));
          data_reportedAt := date;
          data_metadata := orElse metadata (JObject []);
          data_messageId := orElse messageId (JString generatedId);
          data_version := orElse version (JString "2.0");
          data_processingMetrics :=
            {| receivedAt := DateNow now; processedAt := DateNow now |};
          data_qualityScore := Z.max 0 score;
          data_anomalyDetected := score <? 70 |}.

(** The body of the [try] block. *)
Definition tryBlock (raw : JSValue) (deviceConfig : DeviceConfig)
  : Try IEnhancedKafkaDeviceData :=
  _ ← checks raw deviceConfig;
  _ ← completeness raw;
  enhance raw.

Definition validateEnhancedKafkaDeviceData
  (raw : JSValue) (deviceConfig : DeviceConfig) : ValidationResult :=
  match tryBlock raw deviceConfig {| var_errors := []; var_qualityScore := 100 |} with
  | Normal enhancedData s =>
      {| isValid := Nat.eqb (length (var_errors s)) 0;
         data := Some enhancedData;
         qualityScore := Z.max 0 (var_qualityScore s);
         errors := var_errors s |}
  | Abrupt error s =>
      {| isValid := false;
         data := None;
         qualityScore := 0;
         errors := var_errors s ++ [ValidationException error] |}
  end.

End Validator.

(** *** Persistence writer, dead-letter router and the consumer callback *)

Inductive ErrorType : Type :=
| INVALID_TOPIC_FORMAT
| JSON_PARSE_ERROR
| VALIDATION_ERROR
| DATABASE_SAVE_ERROR
| UNEXPECTED_ERROR.

Record KafkaMessage : Type := {
  key : option string;
  value : option string;      (* [message.value?.toString()]; [None] for a null value *)
  headers : list (string * string);
}.

(** The [error] argument of [sendToEnhancedDLQ]. *)
Inductive Cause : Type :=
| InvalidTopic (topic : string)      (* new Error(`Invalid topic format: ${topic}`) *)
| ValidationErrors (errors : list ValidationError)
                                     (* new Error(`Validation errors: ${errors.join(', ')}`) *)
| Caught (error : JSError)           (* a caught exception passed on *)
| NullError.                          (* [lastError] still [null] *)

(** The [additionalContext] argument of [sendToEnhancedDLQ]. *)
Inductive AdditionalContext : Type :=
| NoContext
| RawMessage (rawMessage : string)
| ValidationContext (validationErrors : list ValidationError) (qualityScore : Z)
| DeviceDataContext (deviceData : option IEnhancedKafkaDeviceData).

(** What a callback does to the outside world, in order. *)
Inductive Effect : Type :=
| DlqPublish (dlqTopic : string) (originalMessage : KafkaMessage)
    (errorType : ErrorType) (error : Cause) (additionalContext : AdditionalContext)
                                     (* dlqProducer.send *)
| SaveFailed (attempt : nat) (error : JSError)
                                     (* the attempt threw or [save()] rejected *)
| Stored (attempt : nat) (deviceData : IEnhancedKafkaDeviceData)
    (deviceId : string) (deviceType : option DeviceType)
                                     (* [newDeviceData.save()] resolved *)
| MetricsPublish (deviceId : string) (deviceType : option DeviceType)
    (deviceData : IEnhancedKafkaDeviceData)
                                     (* metricsProducer.send, failure swallowed *)
| Sleep (delay : float).              (* setTimeout(resolve, delay), milliseconds *)

(** What the surroundings answer during one callback. *)
Record Environment : Type := {
  heartbeat : option JSError;        (* the rejection of [heartbeat()], if any *)
  clock : float;                     (* Date.now() *)
  generatedId : string;
  store : nat → option JSError;      (* the rejection of the n-th [save()], if any *)
  random : nat → float;              (* Math.random() drawn after the n-th failure *)
}.

Inductive SaveResult : Type :=
| Saved
| Rejected (lastError : option JSError).   (* throw lastError *)

(** [Math.pow(2, attempt) * 1000 + Math.random() * 1000], on doubles;
    [r] is the number [Math.random()] returned. *)
Definition backoff (attempt : nat) (r : float) : float :=
  (JS.pow2 attempt * 1000 + r * 1000)%float.

Section Consumer.
Context (rt : JSRuntime) (env : Environment).

(** [sendToEnhancedDLQ]: everything happens inside a [try] whose [catch]
    only logs; reading [error.message] of [null] lands there before the
    producer is called. *)
Definition sendToEnhancedDLQ (originalTopic : string) (originalMessage : KafkaMessage)
  (errorType : ErrorType) (error : Cause) (additionalContext : AdditionalContext) : list Effect :=
  match error with
  | NullError => []
  | _ => [DlqPublish (originalTopic +:+ ".dlq.v2") originalMessage errorType error
            additionalContext]
  end.

(** One pass through the [try] block of the retry loop, up to and including
    [await newDeviceData.save()].  [deviceData] is [None] when the caller
    passed [undefined]: building the document then throws on
    [deviceData.value].  [deviceData.timestamp * 1000] converts the
    timestamp. *)
Definition trySave (deviceData : option IEnhancedKafkaDeviceData) (attempt : nat)
  : JSError + IEnhancedKafkaDeviceData :=
  match deviceData with
  | None => inl (TypeError "Cannot read properties of undefined (reading 'value')")
  | Some d =>
      match JS.ToNumber rt (data_timestamp d) with
      | inl e => inl e
      | inr _ =>
          match store env attempt with
          | Some e => inl e
          | None => inr d
          end
      end
  end.

(** [for (let attempt = 1; attempt <= maxRetries; attempt++)], entered with
    [iterations] passes left, that is [maxRetries + 1 - attempt]. *)
Fixpoint retryLoop (deviceData : option IEnhancedKafkaDeviceData)
  (deviceId : string) (deviceType : option DeviceType) (maxRetries : nat)
  (iterations attempt : nat) (lastError : option JSError)
  : list Effect * SaveResult :=
  match iterations with
  | O => ([], Rejected lastError)
  | S iterations' =>
      match trySave deviceData attempt with
      | inr d =>
          ([Stored attempt d deviceId deviceType; MetricsPublish deviceId deviceType d],
           Saved)
      | inl error =>
          let pause :=
            if (attempt <? maxRetries)%nat
            then [Sleep (backoff attempt (random env attempt))]
            else [] in
          let '(effects, result) :=
            retryLoop deviceData deviceId deviceType maxRetries
              iterations' (S attempt) (Some error) in
          (SaveFailed attempt error :: pause ++ effects, result)
      end
  end.

Definition saveEnhancedDeviceData (deviceData : option IEnhancedKafkaDeviceData)
  (deviceId : string) (deviceType : option DeviceType) (maxRetries : nat)
  : list Effect * SaveResult :=
  retryLoop deviceData deviceId deviceType maxRetries maxRetries 1%nat None.

Definition defaultMaxRetries : nat := 3.

(** [error as Error] for the value a failed save threw. *)
Definition thrown (lastError : option JSError) : Cause :=
  match lastError with
  | Some e => Caught e
  | None => NullError
  end.

(** The callback from the validation on (lines 436-461): the dead-letter
    report of an invalid reading, the drop decision, and the save. *)
Definition validateAndSave (topic : string) (message : KafkaMessage)
  (topicInfo : TopicInfo) (rawData : JSValue) : list Effect :=
  let validationResult :=
    validateEnhancedKafkaDeviceData rt (clock env) (generatedId env)
      rawData (deviceConfig topicInfo) in
  let reported :=
    if isValid validationResult then []
    else sendToEnhancedDLQ topic message VALIDATION_ERROR
           (ValidationErrors (errors validationResult))
           (ValidationContext (errors validationResult)
              (qualityScore validationResult)) in
  (* Still process if quality score is acceptable *)
  if negb (isValid validationResult) && (qualityScore validationResult <? 50)
  then reported
  else
    let deviceData := data validationResult in   (* validationResult.data! *)
    (* Save to database *)
    match saveEnhancedDeviceData deviceData (deviceId topicInfo)
            (deviceType topicInfo) defaultMaxRetries with
    | (effects, Saved) => reported ++ effects
    | (effects, Rejected saveError) =>
        reported ++ effects ++
        sendToEnhancedDLQ topic message DATABASE_SAVE_ERROR
          (thrown saveError) (DeviceDataContext deviceData)
    end.

(** The [eachMessage] callback of [runEnhancedConsumer]; the outer [catch]
    is reached by a rejected heartbeat only, every later stage catches its
    own failures. *)
Definition eachMessage (topic : string) (message : KafkaMessage) : list Effect :=
  match heartbeat env with
  | Some error =>
      sendToEnhancedDLQ topic message UNEXPECTED_ERROR (Caught error) NoContext
  | None =>
      match value message with
      | None | Some "" => []
      | Some messageValue =>
          (* Parse topic information *)
          match parseEnhancedKafkaTopic topic with
          | None =>
              sendToEnhancedDLQ topic message INVALID_TOPIC_FORMAT
                (InvalidTopic topic) NoContext
          | Some topicInfo =>
              (* Skip control topics for now *)
              if isControlTopic topicInfo then []
              else
                (* Parse and validate JSON payload *)
                match JSON_parse rt messageValue with
                | inl parseError =>
                    sendToEnhancedDLQ topic message JSON_PARSE_ERROR
                      (Caught parseError) (RawMessage messageValue)
                | inr rawData => validateAndSave topic message topicInfo rawData
                end
          end
      end
  end.

End Consumer.

(** *** Readings of an effect trace *)

Definition isStored (e : Effect) : bool :=
  match e with Stored _ _ _ _ => true | _ => false end.

Definition isDlq (e : Effect) : bool :=
  match e with DlqPublish _ _ _ _ _ => true | _ => false end.

Definition isDlqOf (t : ErrorType) (e : Effect) : bool :=
  match e with
  | DlqPublish _ _ t' _ _ =>
      match t, t' with
      | INVALID_TOPIC_FORMAT, INVALID_TOPIC_FORMAT
      | JSON_PARSE_ERROR, JSON_PARSE_ERROR
      | VALIDATION_ERROR, VALIDATION_ERROR
      | DATABASE_SAVE_ERROR, DATABASE_SAVE_ERROR
      | UNEXPECTED_ERROR, UNEXPECTED_ERROR => true
      | _, _ => false
      end
  | _ => false
  end.

Definition isSaveFailed (e : Effect) : bool :=
  match e with SaveFailed _ _ => true | _ => false end.

(** The reading was persisted / dead-lettered during the callback. *)
Definition persisted (trace : list Effect) : bool := existsb isStored trace.
Definition deadLettered (trace : list Effect) : bool := existsb isDlq trace.
Definition deadLetteredAs (t : ErrorType) (trace : list Effect) : bool :=
  existsb (isDlqOf t) trace.

(** Attempts made at storing: every one either failed or stored. *)
Definition attempts (trace : list Effect) : nat :=
  length (List.filter (λ e, isSaveFailed e || isStored e) trace).


(** *** Measures used in the statements *)

(** The deduction that accompanies each entry of [errors]. *)
Definition penalty (e : ValidationError) : Z :=
  match e with
  | InvalidValueField => 50
  | InvalidUnitNameField => 30
  | ValueOutOfRange _ _ => 40
  | UnitMismatch _ _ => 20
  | TimestampOutOfWindow => 10
  | ValidationException _ => 0
  end.

Definition penalties (errors : list ValidationError) : Z :=
  foldr (λ e acc, penalty e + acc) 0 errors.

(** What holds of the result and the locals when a computation of the
    [try] block completes normally from [s]. *)
Definition onNormal {A : Type} (m : Try A) (Q : A → Locals → Prop) (s : Locals) : Prop :=
  match m s with
  | Normal a s' => Q a s'
  | Abrupt _ _ => True
  end.

(** The score accounts for exactly the recorded errors. *)
Definition accounted (s : Locals) : Prop :=
  var_qualityScore s = 100 - penalties (var_errors s).

(** What [Math.random()] returns: a double that is at least 0 and less
    than 1. *)
Definition unitInterval (r : float) : Prop :=
  (0 <=? r)%float = true ∧ (r <? 1)%float = true.

(** The own keys of the device table: the known sensor types. *)
Definition sensorTypes : list string := ENHANCED_DEVICE_TYPE_MAP.*1.

(** [!raw.k] on a payload whose properties can be read. *)
Definition missing (raw : JSValue) (k : string) : bool :=
  match JS.Get raw k with
  | inr v => negb (JS.ToBoolean v)
  | inl _ => false
  end.

(** The topics [runEnhancedConsumer] subscribes to (lines 368-385). *)
Definition topics : list string :=
  [ (* Static topics for known devices *)
    "bike.000001.heartrate";
    "bike.000001.cadence";
    "bike.000001.speed";
    "bike.000001.power";
    "bike.000001.resistance";
    "bike.000001.incline";
    "bike.000001.fan";
    (* Control topics *)
    "bike.000001.heartrate.control";
    "bike.000001.cadence.control";
    "bike.000001.speed.control";
    "bike.000001.power.control";
    "bike.000001.resistance.control";
    "bike.000001.incline.control";
    "bike.000001.fan.control" ].

Definition isMetrics (e : Effect) : bool :=
  match e with MetricsPublish _ _ _ => true | _ => false end.

(** How many effects of a kind a trace holds. *)
Definition count (kind : Effect → bool) (trace : list Effect) : nat :=
  length (List.filter kind trace).

End Feed.

(** ** The distribution bridge (server.ts) *)

Module Bridge.

Definition DEVICE_TYPES : list string :=
  [ "heartrate"; "cadence"; "speed"; "power"; "resistance"; "incline"; "fan" ].

Inductive Transport : Type := websocket | sse.

(** The [connection: any] member: the socket, or the response object of the
    request that opened the stream. *)
Inductive Handle : Type :=
| SocketHandle (socketId : string)
| ResponseHandle (request : nat).

Record ConnectionInfo : Type := {
  id : string;
  type : Transport;
  connectedAt : Z;
  lastActivity : Z;
  subscriptions : gset string;
  deviceId : option string;
  connection : Handle;
}.

(** The process state the handlers share: the [activeConnections] map, and
    the room membership that socket.io keeps for every connected socket
    ([socket.join] adds to it, a disconnect drops the socket, and a socket
    starts out in the room named by its own id). *)
Record State : Type := {
  activeConnections : gmap string ConnectionInfo;
  rooms : gmap string (gset string);
}.

Definition initial : State := {| activeConnections := ∅; rooms := ∅ |}.

(** The envelope built for a forwarded message. *)
Record MessageData : Type := {
  msg_topic : string;
  msg_deviceId : string;
  msg_deviceType : string;
  msg_isReport : bool;
  msg_data : JSValue;            (* ...data *)
  msg_timestamp : JSValue + Z;   (* data.timestamp || new Date().toISOString() *)
  msg_messageId : JSValue;       (* data.messageId || generated *)
  msg_receivedAt : Z;
}.

Inductive Output : Type :=
| EmitSubscribed (socketId : string) (deviceId : string) (deviceTypes : list string)
                                   (* socket.emit('subscribed', ...) *)
| EmitSensorData (socketId : string) (room : string) (messageData : MessageData)
                                   (* io.to(room).emit('sensor_data', ...) reaching a socket *)
| SseConnected (connection : Handle)
                                   (* the initial frame of GET /events *)
| SseWrite (connection : Handle) (messageData : MessageData) (threw : bool).
                                   (* connection.write(sseMessage) *)

(** What can happen to the bridge.  Times are [Date] readings in
    milliseconds. *)
Inductive Input : Type :=
| HttpEvents (request : nat) (now : Z)            (* GET /events *)
| RequestClose (openedAt : Z)                     (* 'close' of the request opened at that time *)
| SocketConnection (socketId : string) (now : Z)  (* io.on('connection') *)
| SocketSubscribe (socketId : string) (deviceId : string)
    (deviceTypes : option (list string)) (now : Z)
                                                  (* 'subscribe'; [None]: list omitted *)
| SocketDisconnect (socketId : string)            (* 'disconnect' *)
| ReaperTick (now : Z)                            (* the setInterval callback *)
| KafkaMessage (topic : string) (value : option string) (now : Z)
    (heartbeatFails : bool) (generatedId : string) (writeThrows : string → bool).
                                                  (* eachMessage *)

Definition staleThreshold : Z := 5 * 60 * 1000.

Definition roomName (deviceId type : string) : string :=
  "device_" +:+ deviceId +:+ "_" +:+ type.

Definition sseId (now : Z) : string := "sse_" +:+ pretty now.

Definition touch (now : Z) (c : ConnectionInfo) : ConnectionInfo :=
  {| id := id c; type := type c; connectedAt := connectedAt c;
     lastActivity := now;
     subscriptions := subscriptions c; deviceId := deviceId c;
     connection := connection c |}.

Definition isWebsocket (c : ConnectionInfo) : bool :=
  match type c with websocket => true | sse => false end.

(** The reaper: [forEach] with [delete] of the entries it finds stale;
    deleting the entry being visited does not disturb a Map iteration. *)
Definition reap (now : Z) (m : gmap string ConnectionInfo) : gmap string ConnectionInfo :=
  filter (λ kv, ¬ (now - lastActivity kv.2 > staleThreshold)) m.

(** The subscribe handler on a registered connection. *)
Definition subscribe (deviceId : string) (deviceTypes : list string) (now : Z)
  (c : ConnectionInfo) : ConnectionInfo :=
  {| id := id c; type := type c; connectedAt := connectedAt c;
     lastActivity := now;
     subscriptions := subscriptions c ∪ list_to_set (roomName deviceId <$> deviceTypes);
     deviceId := Some deviceId;
     connection := connection c |}.

(** [io.to(room).emit]: the sockets that are in the room. *)
Definition socketsIn (room : string) (rooms : gmap string (gset string)) : list string :=
  (map_to_list (filter (λ kv, room ∈ kv.2) rooms)).*1.

(** The first [forEach] of the fan-out: refresh subscribed websockets. *)
Definition refresh (room : string) (now : Z) (c : ConnectionInfo) : ConnectionInfo :=
  if isWebsocket c && bool_decide (room ∈ subscriptions c) then touch now c else c.

(** The second [forEach]: the entries whose key starts with [sse_]. *)
Definition sseEntries (m : gmap string ConnectionInfo) : list (string * ConnectionInfo) :=
  map_to_list (filter (λ kv, JS.startsWith kv.1 "sse_" = true) m).

Section Handlers.
Context (rt : JSRuntime).

(** The envelope, or the exception of reading [data.timestamp]. *)
Definition buildMessageData (topic : string) (topicParts : list string)
  (data : JSValue) (now : Z) (generatedId : string) : JSError + MessageData :=
  match JS.Get data "timestamp", JS.Get data "messageId" with
  | inr timestamp, inr messageId =>
      inr {| msg_topic := topic;
             msg_deviceId := default "" (topicParts !! 1%nat);
             msg_deviceType := default "" (topicParts !! 2%nat);
             msg_isReport :=
               match topicParts !! 3%nat with
               | Some s => String.eqb s "report"
               | None => false
               end;
             msg_data := data;
             msg_timestamp := if JS.ToBoolean timestamp then inl timestamp else inr now;
             msg_messageId :=
               if JS.ToBoolean messageId then messageId else JString generatedId;
             msg_receivedAt := now |}
  | inl e, _ | _, inl e => inl e
  end.

(** The envelope of a message that gets as far as the fan-out: the
    heartbeat resolved, the value is non-empty, it parses, at least three
    topic segments, and the envelope could be built. *)
Definition routed (topic : string) (value : option string) (now : Z)
  (heartbeatFails : bool) (generatedId : string) : option MessageData :=
  if heartbeatFails then None
  else
    match value with
    | None | Some "" => None
    | Some messageValue =>
        match JSON_parse rt messageValue with
        | inl _ => None
        | inr data =>
            let topicParts := JS.split "." topic in
            if (3 <=? length topicParts)%nat then
              match buildMessageData topic topicParts data now generatedId with
              | inr messageData => Some messageData
              | inl _ => None
              end
            else None
        end
    end.

Definition fanOut (st : State) (messageData : MessageData) (now : Z)
  (writeThrows : string → bool) : State * list Output :=
  let room := roomName (msg_deviceId messageData) (msg_deviceType messageData) in
  let refreshed := refresh room now <$> activeConnections st in
  ({| activeConnections :=
        map_imap (λ key c,
          if JS.startsWith key "sse_"
          then if writeThrows key then None else Some (touch now c)
          else Some c) refreshed;
      rooms := rooms st |},
   ((λ socketId, EmitSensorData socketId room messageData) <$> socketsIn room (rooms st))
   ++ ((λ kv : string * ConnectionInfo,
          SseWrite (connection kv.2) messageData (writeThrows kv.1))
       <$> sseEntries refreshed)).

Definition step (st : State) (input : Input) : State * list Output :=
  match input with
  | HttpEvents request now =>
      let connectionId := sseId now in
      ({| activeConnections :=
            <[connectionId :=
                {| id := connectionId; type := sse; connectedAt := now;
                   lastActivity := now; subscriptions := ∅; deviceId := None;
                   connection := ResponseHandle request |}]> (activeConnections st);
          rooms := rooms st |},
       [SseConnected (ResponseHandle request)])
  | RequestClose openedAt =>
      ({| activeConnections := delete (sseId openedAt) (activeConnections st);
          rooms := rooms st |}, [])
  | SocketConnection socketId now =>
      ({| activeConnections :=
            <[socketId :=
                {| id := socketId; type := websocket; connectedAt := now;
                   lastActivity := now; subscriptions := ∅; deviceId := None;
                   connection := SocketHandle socketId |}]> (activeConnections st);
          rooms := <[socketId := {[socketId]}]> (rooms st) |}, [])
  | SocketSubscribe socketId deviceId deviceTypes now =>
      match rooms st !! socketId with
      | None => (st, [])                  (* no such socket, hence no handler *)
      | Some joined =>
          match activeConnections st !! socketId with
          | None => (st, [])              (* if (!connectionInfo) return; *)
          | Some connectionInfo =>
              let deviceTypes := default DEVICE_TYPES deviceTypes in
              ({| activeConnections :=
                    <[socketId := subscribe deviceId deviceTypes now connectionInfo]>
                      (activeConnections st);
                  rooms :=
                    <[socketId := joined ∪ list_to_set (roomName deviceId <$> deviceTypes)]>
                      (rooms st) |},
               [EmitSubscribed socketId deviceId deviceTypes])
          end
      end
  | SocketDisconnect socketId =>
      match rooms st !! socketId with
      | None => (st, [])
      | Some _ =>
          ({| activeConnections := delete socketId (activeConnections st);
              rooms := delete socketId (rooms st) |}, [])
      end
  | ReaperTick now =>
      ({| activeConnections := reap now (activeConnections st);
          rooms := rooms st |}, [])
  | KafkaMessage topic value now heartbeatFails generatedId writeThrows =>
      match routed topic value now heartbeatFails generatedId with
      | Some messageData => fanOut st messageData now writeThrows
      | None => (st, [])
      end
  end.

(** The bridge after a history of inputs, with everything it sent. *)
Fixpoint run (st : State) (history : list Input) : State * list Output :=
  match history with
  | [] => (st, [])
  | input :: rest =>
      let '(st', out) := step st input in
      let '(st'', out') := run st' rest in
      (st'', out ++ out')
  end.

(** The topics [startKafkaConsumer] subscribes to. *)
Definition topics : list string :=
  deviceId ← ["000001"; "*"];
  type ← DEVICE_TYPES;
  ["bike." +:+ deviceId +:+ "." +:+ type;
   "bike." +:+ deviceId +:+ "." +:+ type +:+ ".report"].

End Handlers.

(** *** Control commands *)

(** Helper function to get unit for control type. *)
Definition getUnitForControlType (controlType : string) : string :=
  if String.eqb controlType "fan" then "percent"
  else if String.eqb controlType "incline" then "percent"
  else if String.eqb controlType "resistance" then "level"
  else "unit".

Record ControlPayload : Type := {
  ctl_value : float;
  ctl_unitName : string;
  ctl_timestamp : float;       (* Date.now() / 1000 *)
  ctl_command : string;
}.

Inductive ControlOutput : Type :=
| ProducerSend (topic : string) (payload : ControlPayload)
                                   (* producer.send resolved *)
| EmitControlPublished (socketId : string) (topic : string) (payload : ControlPayload)
                                   (* socket.emit('control_published', ...) *)
| EmitError (socketId : string) (message : string).
                                   (* socket.emit('error', ...) *)

Definition controlTopic (deviceId controlType : string) : string :=
  "bike." +:+ deviceId +:+ "." +:+ controlType +:+ ".control".

(** The [publish_control] handler of a socket; it does not touch the
    registry.  [sendFails]: [producer.send] rejected. *)
Definition publish_control (socketId deviceId controlType : string) (value : float)
  (command : string) (now : float) (sendFails : bool) : list ControlOutput :=
  let topic := controlTopic deviceId controlType in
  let payload :=
    {| ctl_value := value;
       ctl_unitName := getUnitForControlType controlType;
       ctl_timestamp := (now / 1000)%float;
       ctl_command := command |} in
  if sendFails
  then [EmitError socketId "Failed to publish control command"]
  else [ProducerSend topic payload; EmitControlPublished socketId topic payload].

(** *** Notions used in the statements *)

(** The input is neither the disconnect nor a new connection of the socket. *)
Definition keepsSocket (socketId : string) (input : Input) : Prop :=
  match input with
  | SocketDisconnect socketId' => socketId' ≠ socketId
  | SocketConnection socketId' _ => socketId' ≠ socketId
  | _ => True
  end.

(** Every websocket of the registry is a connected socket that is in all
    the rooms its entry lists. *)
Definition subscriptionsOk (st : State) : Prop :=
  ∀ key c, activeConnections st !! key = Some c → type c = websocket →
           ∃ joined, rooms st !! key = Some joined ∧ subscriptions c ⊆ joined.

(** socket.io identifies a socket by 20 characters. *)
Definition socketIdOk (input : Input) : Prop :=
  match input with
  | SocketConnection socketId _ => String.length socketId = 20%nat
  | _ => True
  end.

(** The socket asked, at some point of the history, for the room of
    [deviceId] and [type]. *)
Definition subscribedIn (history : list Input) (socketId deviceId type : string) : Prop :=
  ∃ deviceTypes now,
    SocketSubscribe socketId deviceId deviceTypes now ∈ history
    ∧ type ∈ default DEVICE_TYPES deviceTypes.

(** Every entry of the registry sits under its own id; a stream entry has a
    key that starts with [sse_]. *)
Definition registryOk (st : State) : Prop :=
  ∀ key c, activeConnections st !! key = Some c →
           id c = key ∧ (type c = sse → JS.startsWith key "sse_" = true).

(** Every connected socket has a 20-character id and is in its own room and
    in rooms it subscribed to, and in no other. *)
Definition roomsOk (history : list Input) (st : State) : Prop :=
  ∀ socketId joined, rooms st !! socketId = Some joined →
    String.length socketId = 20%nat
    ∧ ∀ room, room ∈ joined →
        room = socketId
        ∨ ∃ deviceId type,
            room = roomName deviceId type ∧ subscribedIn history socketId deviceId type.

Fixpoint underscoreFree (s : string) : bool :=
  match s with
  | EmptyString => true
  | String c rest => negb (Ascii.eqb c "_") && underscoreFree rest
  end.

End Bridge.

(** ** Concrete surroundings for the examples *)

Module Examples.

(** The integer a double stands for, when it is one. *)
Definition integerOf (x : float) : option Z :=
  match Prim2SF x with
  | S754_zero _ => Some 0
  | S754_finite s m e =>
      if 0 <=? e then Some (cond_Zopp s (Z.pos m * 2 ^ e))
      else if Z.pos m mod 2 ^ (- e) =? 0
           then Some (cond_Zopp s (Z.pos m / 2 ^ (- e)))
           else None
  | _ => None
  end.

Definition ofInteger (z : Z) : float :=
  if 0 <=? z then PrimFloat.of_uint63 (Uint63.of_Z z)
  else (- PrimFloat.of_uint63 (Uint63.of_Z (- z)))%float.

Definition floor (x : float) : float :=
  match Prim2SF x with
  | S754_finite s m e =>
      if 0 <=? e then x else ofInteger (cond_Zopp s (Z.pos m) / 2 ^ (- e))
  | _ => x
  end.

Definition digit (c : Ascii.ascii) : option Z :=
  let n := Z.of_nat (Ascii.nat_of_ascii c) in
  if (48 <=? n) && (n <=? 57) then Some (n - 48) else None.

Fixpoint digits (s : string) (acc : Z) : option Z :=
  match s with
  | EmptyString => Some acc
  | String c rest =>
      match digit c with
      | Some d => digits rest (10 * acc + d)
      | None => None
      end
  end.

(** A double quote, and a JSON text put together with it. *)
Definition quote : string := String "034"%char EmptyString.
Definition quoted (s : string) : string := quote +:+ s +:+ quote.

Definition heartrateTopic : string := "bike.000001.heartrate".

(** The payload of the specification's scenario B, [{value:250, unitName:"bpm"}]. *)
Definition scenarioB : JSValue :=
  JObject [("value", JNumber 250); ("unitName", JString "bpm")].
Definition scenarioBText : string :=
  "{" +:+ quoted "value" +:+ ":250," +:+ quoted "unitName" +:+ ":" +:+ quoted "bpm" +:+ "}".

(** The same reading with the three completeness fields filled in. *)
Definition scenarioBComplete : JSValue :=
  JObject [("value", JNumber 250); ("unitName", JString "bpm");
           ("deviceId", JString "000001"); ("bikeId", JString "bike-1");
           ("metadata", JObject [])].
Definition scenarioBCompleteText : string :=
  "{" +:+ quoted "value" +:+ ":250," +:+ quoted "unitName" +:+ ":" +:+ quoted "bpm"
  +:+ "," +:+ quoted "deviceId" +:+ ":" +:+ quoted "000001"
  +:+ "," +:+ quoted "bikeId" +:+ ":" +:+ quoted "bike-1"
  +:+ "," +:+ quoted "metadata" +:+ ":{}}".

(** A well-formed reading with every completeness field, and the same
    one without [metadata]. *)
Definition complete : JSValue :=
  JObject [("value", JNumber 75); ("unitName", JString "bpm");
           ("deviceId", JString "000001"); ("bikeId", JString "bike-1");
           ("metadata", JObject [])].
Definition withoutMetadata : JSValue :=
  JObject [("value", JNumber 75); ("unitName", JString "bpm");
           ("deviceId", JString "000001"); ("bikeId", JString "bike-1")].
Definition completeText : string :=
  "{" +:+ quoted "value" +:+ ":75," +:+ quoted "unitName" +:+ ":" +:+ quoted "bpm"
  +:+ "," +:+ quoted "deviceId" +:+ ":" +:+ quoted "000001"
  +:+ "," +:+ quoted "bikeId" +:+ ":" +:+ quoted "bike-1"
  +:+ "," +:+ quoted "metadata" +:+ ":{}}".

(** A reading in the wrong unit, and one stamped with the epoch. *)
Definition wrongUnit : JSValue :=
  JObject [("value", JNumber 75); ("unitName", JString "rpm");
           ("deviceId", JString "000001"); ("bikeId", JString "bike-1");
           ("metadata", JObject [])].
Definition epochZero : JSValue :=
  JObject [("value", JNumber 75); ("unitName", JString "bpm");
           ("timestamp", JNumber 0);
           ("deviceId", JString "000001"); ("bikeId", JString "bike-1");
           ("metadata", JObject [])].

Definition heartrateEntry : Feed.DeviceEntry :=
  {| Feed.type := Feed.heartRate;
     Feed.validationRules := {| Feed.min := 30; Feed.max := 220; Feed.unit := "bpm" |} |}.

(** The texts the example runtime can parse. *)
Definition knownTexts : list (string * JSValue) :=
  [ (scenarioBText, scenarioB);
    (scenarioBCompleteText, scenarioBComplete);
    (completeText, complete);
    ("null", JNull) ].

(** A runtime for running the examples.  Its number conversions are exact
    on the integers, which is all the examples contain; it parses the
    texts above and rejects every other one. *)
Definition runtime : JSRuntime :=
  {| NumberToString := λ x,
       match integerOf x with
       | Some z => pretty z
       | None => "NaN"
       end;
     StringToNumber := λ s,
       match s with
       | EmptyString => 0%float
       | _ => match digits s 0 with
              | Some z => ofInteger z
              | None => JS.NaN
              end
       end;
     Math_floor := floor;
     JSON_parse := λ text,
       match JS.assoc text knownTexts with
       | Some v => inr v
       | None => inl (SyntaxError text)
       end |}.

Definition heartrateConfig : Feed.DeviceConfig :=
  Feed.OwnEntry
    {| Feed.type := Feed.heartRate;
       Feed.validationRules := {| Feed.min := 30; Feed.max := 220; Feed.unit := "bpm" |} |}.

Definition messageOf (text : string) : Feed.KafkaMessage :=
  {| Feed.key := None; Feed.value := Some text; Feed.headers := [] |}.

(** A healthy store, and one that rejects every write. *)
Definition storeUp : Feed.Environment :=
  {| Feed.heartbeat := None;
     Feed.clock := 1700000000000;
     Feed.generatedId := "msg_1700000000000_k3x9q2m7p";
     Feed.store := λ _, None;
     Feed.random := λ _, 0%float |}.



(** What the validator returns for [complete] at the clock of the
    environments above. *)
Definition reading : Feed.IEnhancedKafkaDeviceData :=
  {| Feed.data_spread := complete;
     Feed.data_value := 75;
     Feed.data_timestamp := JNumber 1700000000;
     Feed.data_reportedAt := Feed.DateNow 1700000000000;
     Feed.data_metadata := JObject [];
     Feed.data_messageId := JString "msg_1700000000000_k3x9q2m7p";
     Feed.data_version := JString "2.0";
     Feed.data_processingMetrics :=
       {| Feed.receivedAt := Feed.DateNow 1700000000000;
          Feed.processedAt := Feed.DateNow 1700000000000 |};
     Feed.data_qualityScore := 100;
     Feed.data_anomalyDetected := false |}.

(** A socket.io identifier. *)
Definition socketA : string := "AbCdEfGhIjKlMnOpQrSt".

Definition noWriteFailure : string → bool := λ _, false.

(** A socket connects and subscribes to the heart rate of bike 000001, a
    stream client connects, and nothing happens for more than five minutes. *)
Definition quietStart : list Bridge.Input :=
  [ Bridge.SocketConnection socketA 0;
    Bridge.SocketSubscribe socketA "000001" (Some ["heartrate"]) 1000;
    Bridge.HttpEvents 1 2000 ].

Definition sweepTime : Z := 400000.

(** A heart-rate message that arrives after the sweep. *)
Definition lateMessage : Bridge.Input :=
  Bridge.KafkaMessage heartrateTopic (Some completeText) 400500 false
    "msg_400500_k3x9q2m7p" noWriteFailure.

(** A socket connects and subscribes, then two stream clients open
    [/events] in the same millisecond; a heart-rate message follows. *)
Definition twinStreams : list Bridge.Input :=
  [ Bridge.SocketConnection socketA 0;
    Bridge.SocketSubscribe socketA "000001" (Some ["heartrate"]) 1000;
    Bridge.HttpEvents 1 2000;
    Bridge.HttpEvents 2 2000 ].

Definition promptMessage : Bridge.Input :=
  Bridge.KafkaMessage heartrateTopic (Some completeText) 3000 false
    "msg_3000_k3x9q2m7p" noWriteFailure.

(** A socket connects and stays silent until after a sweep. *)
Definition silentStart : list Bridge.Input :=
  [ Bridge.SocketConnection socketA 0; Bridge.ReaperTick sweepTime ].

(** A socket connects and subscribes without naming sensor types. *)
Definition promptStart : list Bridge.Input :=
  [ Bridge.SocketConnection socketA 0 ].

End Examples.

(** * Properties *)

(** ** Reasoning rules for the [try] block *)

Section TryRules.
Import Feed.
Context {A B : Type}.

Lemma onNormal_bind (m : Try A) (f : A → Try B) (Q : B → Locals → Prop) s :
  onNormal m (λ a s', onNormal (f a) Q s') s → onNormal (m ≫= f) Q s.
Proof.
  unfold onNormal, mbind, Try_bind. destruct (m s); auto.
Qed.

Lemma onNormal_pure (a : A) (Q : A → Locals → Prop) s :
  Q a s → onNormal (pure a) Q s.
Proof. auto. Qed.

Lemma onNormal_eval (x : JSError + A) (Q : A → Locals → Prop) s :
  (∀ a, x = inr a → Q a s) → onNormal (eval x) Q s.
Proof. unfold onNormal, eval. destruct x; auto. Qed.

Lemma onNormal_mono (m : Try A) (Q Q' : A → Locals → Prop) s :
  onNormal m Q s → (∀ a s', Q a s' → Q' a s') → onNormal m Q' s.
Proof. unfold onNormal. destruct (m s); auto. Qed.

Lemma onNormal_both (m : Try A) (Q Q' : A → Locals → Prop) s :
  onNormal m Q s → onNormal m Q' s → onNormal m (λ a s', Q a s' ∧ Q' a s') s.
Proof. unfold onNormal. destruct (m s); auto. Qed.

End TryRules.

Section TryRulesUnit.
Import Feed.

Lemma onNormal_push e (Q : () → Locals → Prop) s :
  Q tt {| var_errors := var_errors s ++ [e]; var_qualityScore := var_qualityScore s |} →
  onNormal (push e) Q s.
Proof. auto. Qed.

Lemma onNormal_deduct n (Q : () → Locals → Prop) s :
  Q tt {| var_errors := var_errors s; var_qualityScore := var_qualityScore s - n |} →
  onNormal (deduct n) Q s.
Proof. auto. Qed.

Lemma onNormal_readScore (Q : Z → Locals → Prop) s :
  Q (var_qualityScore s) s → onNormal readScore Q s.
Proof. auto. Qed.

Lemma onNormal_when c body (Q : () → Locals → Prop) s :
  (c = true → onNormal body Q s) → (c = false → Q tt s) →
  onNormal (when c body) Q s.
Proof.
  intros Hthen Helse. destruct c; unfold when.
  - now apply Hthen.
  - now apply Helse.
Qed.

Lemma penalties_snoc errors e :
  penalties (errors ++ [e]) = penalties errors + penalty e.
Proof.
  induction errors as [|e' errors IH]; simpl; [lia|].
  rewrite IH. lia.
Qed.

End TryRulesUnit.

Ltac try_step :=
  lazymatch goal with
  | |- Feed.onNormal (mbind _ _) _ _ => apply onNormal_bind
  | |- Feed.onNormal (Feed.eval _) _ _ => apply onNormal_eval; intros ? ?
  | |- Feed.onNormal (Feed.push _) _ _ => apply onNormal_push
  | |- Feed.onNormal (Feed.deduct _) _ _ => apply onNormal_deduct
  | |- Feed.onNormal Feed.readScore _ _ => apply onNormal_readScore
  | |- Feed.onNormal (Feed.when _ _) _ _ => apply onNormal_when; intros ?
  | |- Feed.onNormal (Feed.pure _) _ _ => apply onNormal_pure
  | |- Feed.onNormal (if ?c then _ else _) _ _ => destruct c eqn:?
  end; cbv beta.

Ltac try_steps := repeat try_step.

(** ** The validator *)

Section ValidatorFacts.
Import Feed.
Context (rt : JSRuntime) (now : float) (generatedId : string).

Lemma checks_accounted raw deviceConfig s :
  accounted s →
  onNormal (checks rt now raw deviceConfig) (λ _ s', accounted s') s.
Proof.
  unfold accounted, checks. intros Hs.
  try_steps; cbn [var_errors var_qualityScore];
    rewrite ?penalties_snoc; cbn [penalty]; lia.
Qed.

(** A timestamp that is present went through [data.timestamp * 1000]
    without throwing. *)
Lemma checks_timestamp raw deviceConfig s :
  onNormal (checks rt now raw deviceConfig)
    (λ _ _, ∀ ts, JS.Get raw "timestamp" = inr ts → JS.ToBoolean ts = true →
            ∃ x, JS.ToNumber rt ts = inr x) s.
Proof.
  unfold checks.
  try_steps; intros ts Hts Htruthy;
    match goal with
    | H : JS.Get raw "timestamp" = inr ?t |- _ =>
        assert (ts = t) as -> by congruence
    end;
    eauto; congruence.
Qed.

Lemma completeness_spec raw s :
  onNormal (completeness raw)
    (λ _ s',
       var_errors s' = var_errors s ∧
       var_qualityScore s' =
         var_qualityScore s
         - (if missing raw "deviceId" then 5 else 0)
         - (if missing raw "bikeId" then 5 else 0)
         - (if missing raw "metadata" then 2 else 0)) s.
Proof.
  unfold completeness, missing.
  try_steps; cbn [var_errors var_qualityScore];
    repeat match goal with
           | H : JS.Get _ _ = inr _ |- _ => rewrite H; clear H
           | H : negb _ = _ |- _ => rewrite H; clear H
           end;
    (split; [reflexivity | lia]).
Qed.

Lemma enhance_spec raw s :
  onNormal (enhance rt now generatedId raw)
    (λ d s',
       s' = s ∧
       data_qualityScore d = Z.max 0 (var_qualityScore s) ∧
       data_anomalyDetected d = (var_qualityScore s <? 70) ∧
       ∃ ts, JS.Get raw "timestamp" = inr ts ∧
             data_timestamp d
             = orElse ts (JNumber (Math_floor rt (now / 1000)%float))) s.
Proof.
  unfold enhance.
  try_steps; cbn; eauto 6.
Qed.

(** What a normal completion of the [try] block leaves behind. *)
Lemma tryBlock_spec raw deviceConfig :
  onNormal (tryBlock rt now generatedId raw deviceConfig)
    (λ d s,
       var_qualityScore s =
         100 - penalties (var_errors s)
         - (if missing raw "deviceId" then 5 else 0)
         - (if missing raw "bikeId" then 5 else 0)
         - (if missing raw "metadata" then 2 else 0) ∧
       data_qualityScore d = Z.max 0 (var_qualityScore s) ∧
       data_anomalyDetected d = (var_qualityScore s <? 70) ∧
       ∃ x, JS.ToNumber rt (data_timestamp d) = inr x)
    {| var_errors := []; var_qualityScore := 100 |}.
Proof.
  unfold tryBlock.
  apply onNormal_bind.
  eapply onNormal_mono.
  { apply onNormal_both; [apply checks_accounted | apply checks_timestamp].
    reflexivity. }
  intros [] s1 [Hacc Hts]. cbv beta in *.
  apply onNormal_bind.
  eapply onNormal_mono; [apply completeness_spec|].
  intros [] s2 [Herr Hscore]. cbv beta.
  eapply onNormal_mono; [apply enhance_spec|].
  intros d s3 (-> & Hq & Ha & ts & Hget & Hstamp).
  repeat split; auto.
  - rewrite Hscore, Herr. unfold accounted in Hacc. lia.
  - rewrite Hstamp. unfold orElse.
    destruct (JS.ToBoolean ts) eqn:Htruthy; [eauto|].
    simpl. eauto.
Qed.

(** The two shapes of a validation result. *)
Lemma validate_with_data raw deviceConfig d :
  data (validateEnhancedKafkaDeviceData rt now generatedId raw deviceConfig) = Some d →
  let r := validateEnhancedKafkaDeviceData rt now generatedId raw deviceConfig in
  ∃ score,
    score = 100 - penalties (errors r)
            - (if missing raw "deviceId" then 5 else 0)
            - (if missing raw "bikeId" then 5 else 0)
            - (if missing raw "metadata" then 2 else 0) ∧
    qualityScore r = Z.max 0 score ∧
    isValid r = Nat.eqb (length (errors r)) 0 ∧
    data_qualityScore d = Z.max 0 score ∧
    data_anomalyDetected d = (score <? 70) ∧
    ∃ x, JS.ToNumber rt (data_timestamp d) = inr x.
Proof.
  pose proof (tryBlock_spec raw deviceConfig) as Hspec.
  unfold validateEnhancedKafkaDeviceData, onNormal in *.
  destruct (tryBlock rt now generatedId raw deviceConfig _) as [d' s|e s];
    cbn; intros Hd; [|discriminate].
  injection Hd as ->.
  destruct Hspec as (Hs & Hq & Ha & Hts).
  exists (var_qualityScore s). repeat split; assumption || reflexivity.
Qed.

Lemma validate_without_data raw deviceConfig :
  data (validateEnhancedKafkaDeviceData rt now generatedId raw deviceConfig) = None →
  let r := validateEnhancedKafkaDeviceData rt now generatedId raw deviceConfig in
  qualityScore r = 0 ∧ isValid r = false.
Proof.
  unfold validateEnhancedKafkaDeviceData.
  destruct (tryBlock rt now generatedId raw deviceConfig _); cbn; [discriminate|auto].
Qed.

End ValidatorFacts.

(** ** Doubles *)

(** The delay of the retry loop is computed on IEEE doubles.  The facts
    below are read off the specification of the operations ([SpecFloat]):
    how many bits a mantissa has, what the right shift of the rounding
    keeps, and from these the range of [Math.random() * 1000]. *)

Section DoubleFacts.




















(** The delay is a rounded sum: for the largest double below 1 the jitter
    is below 1000 and the first delay is 3000 milliseconds all the same. *)
Lemma backoff_rounds :
  Feed.unitInterval 0x1.fffffffffffffp-1%float
  ∧ (0x1.fffffffffffffp-1 * 1000 <? 1000)%float = true
  ∧ Feed.backoff 1 0x1.fffffffffffffp-1%float = 3000%float.
Proof. repeat split; vm_compute; reflexivity. Qed.

End DoubleFacts.

(** ** The persistence writer and the consumer callback *)

Section ConsumerFacts.
Import Feed.
Context (rt : JSRuntime) (env : Environment).

Lemma persisted_app t1 t2 : persisted (t1 ++ t2) = persisted t1 || persisted t2.
Proof. apply existsb_app. Qed.

Lemma deadLettered_app t1 t2 : deadLettered (t1 ++ t2) = deadLettered t1 || deadLettered t2.
Proof. apply existsb_app. Qed.

Lemma deadLetteredAs_app k t1 t2 :
  deadLetteredAs k (t1 ++ t2) = deadLetteredAs k t1 || deadLetteredAs k t2.
Proof. apply existsb_app. Qed.

Lemma attempts_app t1 t2 : attempts (t1 ++ t2) = (attempts t1 + attempts t2)%nat.
Proof. unfold attempts. now rewrite List.filter_app, length_app. Qed.


(** A callback reaches the validator when the heartbeat resolved, the value
    is not empty, the topic is a known data topic and the text parses. *)
Lemma eachMessage_validated topic message messageValue topicInfo rawData :
  heartbeat env = None →
  value message = Some messageValue →
  messageValue ≠ "" →
  parseEnhancedKafkaTopic topic = Some topicInfo →
  isControlTopic topicInfo = false →
  JSON_parse rt messageValue = inr rawData →
  eachMessage rt env topic message
  = validateAndSave rt env topic message topicInfo rawData.
Proof.
  intros Hh Hv Hne Hp Hc Hj. unfold eachMessage.
  rewrite Hh, Hv, Hp, Hc, Hj.
  destruct messageValue; [congruence | reflexivity].
Qed.

(** The retry loop never dead-letters; it stores at most once, and only
    when it reports success; a rejection comes after exactly [iterations]
    failed attempts and carries the last failure. *)
Lemma retryLoop_result deviceData deviceId deviceType maxRetries :
  ∀ iterations attempt lastError trace result,
    retryLoop rt env deviceData deviceId deviceType maxRetries
      iterations attempt lastError = (trace, result) →
    deadLettered trace = false ∧
    match result with
    | Saved => persisted trace = true ∧ (1 ≤ attempts trace)%nat
    | Rejected lastError' =>
        persisted trace = false ∧ attempts trace = iterations ∧
        (iterations = O → lastError' = lastError) ∧
        ((0 < iterations)%nat → ∃ e, lastError' = Some e)
    end.
Proof.
  induction iterations as [|k IH]; intros attempt lastError trace result; simpl.
  - intros [= <- <-]. repeat split; auto. lia.
  - destruct (trySave rt env deviceData attempt) as [error|d].
    + destruct (retryLoop rt env deviceData deviceId deviceType maxRetries k
                  (S attempt) (Some error)) as [effects result'] eqn:Hrest.
      intros [= <- <-].
      destruct (IH _ _ _ _ Hrest) as [Hdlq Hres].
      change (SaveFailed attempt error ::
                (if (attempt <? maxRetries)%nat
                 then [Sleep (backoff attempt (random env attempt))] else []) ++ effects)
        with ([SaveFailed attempt error] ++
                (if (attempt <? maxRetries)%nat
                 then [Sleep (backoff attempt (random env attempt))] else []) ++ effects).
      rewrite !deadLettered_app, !persisted_app, !attempts_app, Hdlq.
      split; [destruct (attempt <? maxRetries)%nat; reflexivity|].
      destruct result' as [|lastError'].
      * destruct Hres as [-> Hn]. split; [|lia].
        destruct (attempt <? maxRetries)%nat; reflexivity.
      * destruct Hres as (-> & -> & Hzero & Hpos).
        repeat split.
        -- destruct (attempt <? maxRetries)%nat; reflexivity.
        -- destruct (attempt <? maxRetries)%nat; reflexivity.
        -- discriminate.
        -- intros _. destruct k; [rewrite Hzero by reflexivity; eauto | apply Hpos; lia].
    + intros [= <- <-]. cbn. repeat split; auto.
Qed.


End ConsumerFacts.

(** ** Topic router *)

Section RouterFacts.
Import Feed.

Lemma ownEntry_None k table : ownEntry k table = None ↔ k ∉ table.*1.
Proof.
  induction table as [|[k' e] table IH]; simpl.
  - split; [intros _; apply not_elem_of_nil | reflexivity].
  - rewrite not_elem_of_cons. destruct (String.eqb_spec k k') as [->|Hne].
    + split; [discriminate | intros [[] _]; reflexivity].
    + rewrite IH. tauto.
Qed.

Lemma inList_false k l : inList k l = false ↔ k ∉ l.
Proof.
  unfold inList. induction l as [|k' l IH]; simpl.
  - split; [intros _; apply not_elem_of_nil | reflexivity].
  - rewrite not_elem_of_cons, orb_false_iff, IH.
    destruct (String.eqb_spec k k'); intuition congruence.
Qed.

Lemma lookupDeviceConfig_None k :
  lookupDeviceConfig k = None ↔ (k ∉ sensorTypes) ∧ (k ∉ Object_prototype_keys).
Proof.
  unfold lookupDeviceConfig, sensorTypes.
  rewrite <- ownEntry_None, <- inList_false.
  destruct (ownEntry k ENHANCED_DEVICE_TYPE_MAP);
    destruct (inList k Object_prototype_keys); intuition congruence.
Qed.

(** The third segment of every topic the consumer subscribes to is an own
    key of the device table, hence none of the inherited ones. *)
Lemma topics_third_segment topic t :
  topic ∈ topics → JS.split "." topic !! 2%nat = Some t →
  t ∈ sensorTypes ∧ t ∉ Object_prototype_keys.
Proof.
  intros Htopic. unfold topics in Htopic.
  repeat (apply elem_of_cons in Htopic as [->|Htopic];
          [intros [= <-]; split;
           [apply list_elem_of_In; vm_compute; auto 10
           |apply inList_false; reflexivity]|]).
  now apply not_elem_of_nil in Htopic.
Qed.

(** C7.  The router recognises [bike.000001.heartrate] as the claim says.
    The sensor type is looked up with [MAP[key]], which has no own-key
    test, so the names every object inherits are outside what the claim
    describes; no topic the consumer subscribes to has such a name as its
    third segment.  For every topic whose third segment is not an
    inherited name, the router answers "not recognised" exactly when
    segments are missing, the prefix is not [bike], or the third segment is
    none of the seven sensor types. *)
Theorem C7_not_recognised_exactly_when :
  parseEnhancedKafkaTopic "bike.000001.heartrate"
  = Some {| deviceId := "000001";
            deviceType := Some heartRate;
            deviceConfig :=
              OwnEntry {| type := heartRate;
                          validationRules := {| min := 30; max := 220; unit := "bpm" |} |};
            isControlTopic := false |}
  ∧ sensorTypes
    = ["heartrate"; "cadence"; "speed"; "power"; "resistance"; "incline"; "fan"]
  ∧ (∀ topic,
       (∀ t, JS.split "." topic !! 2%nat = Some t → t ∉ Object_prototype_keys) →
       parseEnhancedKafkaTopic topic = None ↔
       (length (JS.split "." topic) < 3)%nat
       ∨ JS.split "." topic !! 0%nat ≠ Some "bike"
       ∨ ∃ t, JS.split "." topic !! 2%nat = Some t ∧ t ∉ sensorTypes)
  ∧ (∀ topic t,
       topic ∈ topics → JS.split "." topic !! 2%nat = Some t →
       t ∉ Object_prototype_keys).
Proof.
  split; [reflexivity|]. split; [reflexivity|]. split.
  - intros topic Hown. unfold parseEnhancedKafkaTopic.
    destruct (JS.split "." topic) as [|p0 [|d [|t rest]]] eqn:Hparts; simpl.
    + split; [intros _; left; lia | reflexivity].
    + split; [intros _; left; lia | reflexivity].
    + split; [intros _; left; lia | reflexivity].
    + specialize (Hown t eq_refl).
      destruct (String.eqb_spec p0 "bike") as [->|Hne].
      * destruct (lookupDeviceConfig t) as [c|] eqn:Hcfg.
        -- split; [discriminate|].
           intros [Hlen | [Hbike | (t' & [= <-] & Hnot)]]; [lia | congruence |].
           assert (lookupDeviceConfig t = None) as Hnone
             by (apply lookupDeviceConfig_None; auto).
           congruence.
        -- split; [|reflexivity]. intros _. right; right.
           exists t. split; [reflexivity|].
           now apply lookupDeviceConfig_None in Hcfg as [Hnot _].
      * split; [|reflexivity]. intros _. right; left. congruence.
  - intros topic t Htopic Ht. now destruct (topics_third_segment topic t Htopic Ht).
Qed.

(** Spec example: an unknown sensor type is not recognised. *)
Lemma C7_not_recognised_exactly_when_witness :
  parseEnhancedKafkaTopic "bike.000001.unknown" = None.
Proof.
  destruct C7_not_recognised_exactly_when as (_ & _ & Hexactly & _).
  apply (Hexactly "bike.000001.unknown").
  - intros t [= <-]. apply inList_false. reflexivity.
  - right. right. exists "unknown". split; [reflexivity|].
    apply inList_false. reflexivity.
Defined.

(** The claim as written fails on [bike.000001.constructor]: three
    segments, prefix [bike], a third segment that is none of the seven
    sensor types, and yet the router recognises the topic. *)
Lemma C7_inherited_key_is_recognised :
  parseEnhancedKafkaTopic "bike.000001.constructor"
  = Some {| deviceId := "000001";
            deviceType := None;
            deviceConfig := InheritedMember "constructor";
            isControlTopic := false |}
  ∧ JS.split "." "bike.000001.constructor" = ["bike"; "000001"; "constructor"]
  ∧ "constructor" ∉ sensorTypes.
Proof.
  split; [reflexivity|]. split; [reflexivity|].
  apply inList_false. reflexivity.
Qed.

End RouterFacts.

(** ** The claims about validation and persistence *)

Section FeedClaims.
Import Feed.

(** A clock reading differs from itself by nothing, so a message without
    timestamp is never more than five minutes off. *)
Lemma self_difference_small (x : float) :
  PrimFloat.ltb 300000 (PrimFloat.abs (x - x)) = false.
Proof.
  rewrite FloatAxioms.ltb_spec, FloatAxioms.abs_spec, FloatAxioms.sub_spec.
  destruct (Prim2SF x) as [sign|sign| |sign m e].
  - destruct sign; reflexivity.
  - destruct sign; reflexivity.
  - reflexivity.
  - unfold SF64sub, SFsub. rewrite Z.min_id, Z.sub_diag. reflexivity.
Qed.

Lemma deadLetteredAs_deadLettered k trace :
  deadLettered trace = false → deadLetteredAs k trace = false.
Proof.
  unfold deadLettered, deadLetteredAs.
  induction trace as [|e trace IH]; simpl; [reflexivity|].
  rewrite !orb_false_iff. intros [He Ht]. split; [|auto].
  destruct e; simpl in *; congruence.
Qed.

Lemma attempts_cons_dlq dlqTopic message errorType error context trace :
  attempts (DlqPublish dlqTopic message errorType error context :: trace) = attempts trace.
Proof. reflexivity. Qed.

Lemma persisted_cons_dlq dlqTopic message errorType error context trace :
  persisted (DlqPublish dlqTopic message errorType error context :: trace) = persisted trace.
Proof. reflexivity. Qed.

(** The save of the callback, with its three attempts. *)
Lemma save_default_result rt env deviceData deviceId deviceType trace result :
  saveEnhancedDeviceData rt env deviceData deviceId deviceType defaultMaxRetries
  = (trace, result) →
  deadLettered trace = false ∧
  match result with
  | Saved => persisted trace = true ∧ (1 ≤ attempts trace)%nat
  | Rejected lastError =>
      persisted trace = false ∧ attempts trace = 3%nat ∧ ∃ e, lastError = Some e
  end.
Proof.
  unfold saveEnhancedDeviceData. intros Hsave.
  destruct (retryLoop_result _ _ _ _ _ _ _ _ _ _ _ Hsave) as [Hdlq Hres].
  split; [assumption|].
  destruct result; [assumption|].
  destruct Hres as (Hp & Ha & _ & Hsome).
  repeat split; auto. apply Hsome. unfold defaultMaxRetries. lia.
Qed.

(** A validated reading is stored at the first attempt when the store
    accepts it. *)
Lemma save_first_attempt rt env raw deviceConfig d deviceId deviceType maxRetries :
  data (validateEnhancedKafkaDeviceData rt (clock env) (generatedId env) raw deviceConfig)
  = Some d →
  store env 1%nat = None →
  saveEnhancedDeviceData rt env (Some d) deviceId deviceType (S maxRetries)
  = ([Stored 1 d deviceId deviceType; MetricsPublish deviceId deviceType d], Saved).
Proof.
  intros Hd Hstore.
  destruct (validate_with_data _ _ _ _ _ _ Hd) as (q & _ & _ & _ & _ & _ & x & Hx).
  unfold saveEnhancedDeviceData. simpl. unfold trySave. now rewrite Hx, Hstore.
Qed.



(** C1.  The claim fails for a reading that is invalid yet scores 50 or
    more: the callback dead-letters every invalid reading with
    VALIDATION_ERROR before it looks at the score, and then still saves
    the ones that score at least 50.  What the callback does: a valid
    reading is either persisted or dead-lettered (DATABASE_SAVE_ERROR),
    never both; an invalid reading below 50 is dead-lettered with
    VALIDATION_ERROR and no save is attempted; an invalid reading at 50 or
    above is dead-lettered with VALIDATION_ERROR and also goes on to the
    save, where it is persisted as soon as the store accepts it. *)
Theorem C1_terminal_outcomes rt env topic message messageValue topicInfo rawData :
  heartbeat env = None →
  value message = Some messageValue →
  messageValue ≠ "" →
  parseEnhancedKafkaTopic topic = Some topicInfo →
  isControlTopic topicInfo = false →
  JSON_parse rt messageValue = inr rawData →
  let r := validateEnhancedKafkaDeviceData rt (clock env) (generatedId env)
             rawData (deviceConfig topicInfo) in
  let trace := eachMessage rt env topic message in
  (isValid r = true →
     deadLetteredAs VALIDATION_ERROR trace = false ∧
     deadLettered trace = negb (persisted trace))
  ∧ (isValid r = false → qualityScore r < 50 →
     deadLetteredAs VALIDATION_ERROR trace = true ∧
     persisted trace = false ∧ attempts trace = 0%nat)
  ∧ (isValid r = false → 50 ≤ qualityScore r →
     deadLetteredAs VALIDATION_ERROR trace = true ∧
     (1 ≤ attempts trace)%nat ∧
     (store env 1%nat = None → persisted trace = true)).
Proof.
  intros Hh Hv Hne Hp Hc Hj r trace.
  subst trace. rewrite (eachMessage_validated _ _ _ _ _ _ _ Hh Hv Hne Hp Hc Hj).
  unfold validateAndSave. fold r.
  destruct (saveEnhancedDeviceData rt env (data r) (deviceId topicInfo)
              (deviceType topicInfo) defaultMaxRetries) as [effects result] eqn:Hsave.
  destruct (save_default_result _ _ _ _ _ _ _ Hsave) as [Hdlq Hres].
  pose proof (deadLetteredAs_deadLettered VALIDATION_ERROR _ Hdlq) as Hval.
  split; [|split].
  - intros ->. simpl.
    destruct result as [|lastError].
    + destruct Hres as [-> _]. now rewrite Hval, Hdlq.
    + destruct Hres as (Hnot & _ & e & ->). simpl.
      rewrite deadLetteredAs_app, deadLettered_app, persisted_app, Hval, Hdlq, Hnot.
      split; reflexivity.
  - intros -> Hlow. simpl.
    replace (qualityScore r <? 50) with true by (symmetry; apply Z.ltb_lt; lia).
    repeat split.
  - intros -> Hhigh. simpl.
    replace (qualityScore r <? 50) with false by (symmetry; apply Z.ltb_ge; lia).
    assert (store env 1%nat = None → result = Saved) as Hfirst.
    { intros Hstore. destruct (data r) as [d|] eqn:Hd.
      - unfold defaultMaxRetries in Hsave.
        rewrite (save_first_attempt _ _ _ _ _ _ _ _ Hd Hstore) in Hsave. congruence.
      - destruct (validate_without_data _ _ _ _ _ Hd) as [Hzero _].
        fold r in Hzero. lia. }
    destruct result as [|lastError];
      rewrite attempts_cons_dlq, persisted_cons_dlq;
      (split; [reflexivity|]).
    + destruct Hres. auto.
    + destruct Hres as (_ & Hthree & _). rewrite attempts_app, Hthree.
      split; [lia|]. intros Hstore. specialize (Hfirst Hstore). congruence.
Qed.

(** The reading of scenario B with its completeness fields present is
    invalid, scores 60, and is both dead-lettered and persisted. *)
Lemma C1_dead_lettered_and_persisted :
  isValid (validateEnhancedKafkaDeviceData Examples.runtime
             (clock Examples.storeUp) (generatedId Examples.storeUp)
             Examples.scenarioBComplete Examples.heartrateConfig) = false
  ∧ qualityScore (validateEnhancedKafkaDeviceData Examples.runtime
             (clock Examples.storeUp) (generatedId Examples.storeUp)
             Examples.scenarioBComplete Examples.heartrateConfig) = 60
  ∧ deadLettered (eachMessage Examples.runtime Examples.storeUp Examples.heartrateTopic
                    (Examples.messageOf Examples.scenarioBCompleteText)) = true
  ∧ persisted (eachMessage Examples.runtime Examples.storeUp Examples.heartrateTopic
                 (Examples.messageOf Examples.scenarioBCompleteText)) = true.
Proof. vm_compute. repeat split. Qed.

Lemma C1_terminal_outcomes_witness :
  deadLetteredAs VALIDATION_ERROR
    (eachMessage Examples.runtime Examples.storeUp Examples.heartrateTopic
       (Examples.messageOf Examples.scenarioBCompleteText)) = true
  ∧ persisted
      (eachMessage Examples.runtime Examples.storeUp Examples.heartrateTopic
         (Examples.messageOf Examples.scenarioBCompleteText)) = true.
Proof.
  destruct (C1_terminal_outcomes Examples.runtime Examples.storeUp
              Examples.heartrateTopic
              (Examples.messageOf Examples.scenarioBCompleteText)
              Examples.scenarioBCompleteText
              {| deviceId := "000001"; deviceType := Some heartRate;
                 deviceConfig := Examples.heartrateConfig; isControlTopic := false |}
              Examples.scenarioBComplete
              eq_refl eq_refl ltac:(discriminate) eq_refl eq_refl eq_refl)
    as (_ & _ & Hkept).
  destruct Hkept as (Hdlq & _ & Hstored);
    [reflexivity | vm_compute; discriminate |].
  split; [exact Hdlq | apply Hstored; reflexivity].
Defined.

(** C2.  The payload of scenario B carries neither [deviceId] nor [bikeId]
    nor [metadata], so besides the 40 points of the range check it loses
    5 + 5 + 2 points: the validator yields 48, not 60.  The reading is
    invalid and flagged anomalous (48 < 70); 48 is below the drop threshold
    50, so the callback dead-letters it with VALIDATION_ERROR and does not
    attempt to persist it. *)
Theorem C2_scenario_B_is_dropped rt env message text :
  heartbeat env = None →
  value message = Some text →
  text ≠ "" →
  JSON_parse rt text = inr Examples.scenarioB →
  let r := validateEnhancedKafkaDeviceData rt (clock env) (generatedId env)
             Examples.scenarioB Examples.heartrateConfig in
  let trace := eachMessage rt env Examples.heartrateTopic message in
  qualityScore r = 48 ∧ qualityScore r = 100 - 40 - 5 - 5 - 2
  ∧ isValid r = false
  ∧ (∃ d, data r = Some d ∧ data_anomalyDetected d = true ∧ data_qualityScore d = 48)
  ∧ deadLetteredAs VALIDATION_ERROR trace = true
  ∧ persisted trace = false
  ∧ attempts trace = 0%nat.
Proof.
  intros Hh Hv Hne Hj r trace.
  assert (qualityScore r = 48 ∧ isValid r = false
          ∧ ∃ d, data r = Some d ∧ data_anomalyDetected d = true
                 ∧ data_qualityScore d = 48) as (Hq & Hi & Hd).
  { subst r. vm_compute. rewrite self_difference_small. vm_compute.
    repeat split. eexists. repeat split. }
  subst trace.
  rewrite (eachMessage_validated rt env Examples.heartrateTopic message text
             {| deviceId := "000001"; deviceType := Some heartRate;
                deviceConfig := Examples.heartrateConfig; isControlTopic := false |}
             Examples.scenarioB Hh Hv Hne eq_refl eq_refl Hj).
  unfold validateAndSave. cbn [deviceConfig]. fold r.
  rewrite Hi, Hq. simpl. repeat split; auto.
Qed.

Lemma C2_scenario_B_is_dropped_witness :
  qualityScore (validateEnhancedKafkaDeviceData Examples.runtime
                  (clock Examples.storeUp) (generatedId Examples.storeUp)
                  Examples.scenarioB Examples.heartrateConfig) = 48
  ∧ persisted (eachMessage Examples.runtime Examples.storeUp Examples.heartrateTopic
                 (Examples.messageOf Examples.scenarioBText)) = false.
Proof.
  destruct (C2_scenario_B_is_dropped Examples.runtime Examples.storeUp
              (Examples.messageOf Examples.scenarioBText) Examples.scenarioBText
              eq_refl eq_refl ltac:(discriminate) eq_refl)
    as (Hq & _ & _ & _ & _ & Hp & _).
  split; [exact Hq | exact Hp].
Defined.

(** On the payload of scenario B the validator yields 48 and the reading is
    not persisted, where the claim has 60 and a persisted reading. *)
Lemma C2_score_is_48_not_persisted :
  qualityScore (validateEnhancedKafkaDeviceData Examples.runtime
                  (clock Examples.storeUp) (generatedId Examples.storeUp)
                  Examples.scenarioB Examples.heartrateConfig) = 48
  ∧ (48 <? 50) = true
  ∧ eachMessage Examples.runtime Examples.storeUp Examples.heartrateTopic
      (Examples.messageOf Examples.scenarioBText)
    = [DlqPublish "bike.000001.heartrate.dlq.v2"
         (Examples.messageOf Examples.scenarioBText) VALIDATION_ERROR
         (ValidationErrors
            [ValueOutOfRange "250" {| min := 30; max := 220; unit := "bpm" |}])
         (ValidationContext
            [ValueOutOfRange "250" {| min := 30; max := 220; unit := "bpm" |}] 48)]
  ∧ persisted (eachMessage Examples.runtime Examples.storeUp Examples.heartrateTopic
                 (Examples.messageOf Examples.scenarioBText)) = false.
Proof. vm_compute. repeat split. Qed.

(** C3.  A missing [deviceId] and a missing [bikeId] each take 5 points, a
    missing [metadata] takes 2 (not 5), and none of the three records an
    error: whenever the validator returns a reading, its score is 100 less
    the penalties of the recorded errors, less these deductions, floored at
    0, and the completeness step leaves the error list as it found it. *)
Theorem C3_completeness_deductions rt now generatedId raw deviceConfig d :
  data (validateEnhancedKafkaDeviceData rt now generatedId raw deviceConfig) = Some d →
  let r := validateEnhancedKafkaDeviceData rt now generatedId raw deviceConfig in
  qualityScore r
  = Z.max 0 (100 - penalties (errors r)
             - (if missing raw "deviceId" then 5 else 0)
             - (if missing raw "bikeId" then 5 else 0)
             - (if missing raw "metadata" then 2 else 0))
  ∧ ∀ s, onNormal (completeness raw)
           (λ _ s',
              var_errors s' = var_errors s ∧
              var_qualityScore s'
              = var_qualityScore s
                - (if missing raw "deviceId" then 5 else 0)
                - (if missing raw "bikeId" then 5 else 0)
                - (if missing raw "metadata" then 2 else 0)) s.
Proof.
  intros Hd r.
  destruct (validate_with_data _ _ _ _ _ _ Hd) as (q & Hq & Hr & _).
  fold r in Hq, Hr. split.
  - now rewrite Hr, Hq.
  - apply completeness_spec.
Qed.

Lemma C3_completeness_deductions_witness :
  qualityScore (validateEnhancedKafkaDeviceData Examples.runtime
                  (clock Examples.storeUp) (generatedId Examples.storeUp)
                  Examples.withoutMetadata Examples.heartrateConfig)
  = Z.max 0 (100 - 0 - 0 - 0 - 2).
Proof.
  destruct (C3_completeness_deductions Examples.runtime
              (clock Examples.storeUp) (generatedId Examples.storeUp)
              Examples.withoutMetadata Examples.heartrateConfig _ eq_refl)
    as [Hscore _].
  exact Hscore.
Defined.

(** Leaving [metadata] out of an otherwise complete, valid reading lowers
    the score from 100 to 98, by 2 and not by 5, with no error recorded. *)
Lemma C3_missing_metadata_costs_2 :
  qualityScore (validateEnhancedKafkaDeviceData Examples.runtime
                  (clock Examples.storeUp) (generatedId Examples.storeUp)
                  Examples.complete Examples.heartrateConfig) = 100
  ∧ qualityScore (validateEnhancedKafkaDeviceData Examples.runtime
                  (clock Examples.storeUp) (generatedId Examples.storeUp)
                  Examples.withoutMetadata Examples.heartrateConfig) = 98
  ∧ errors (validateEnhancedKafkaDeviceData Examples.runtime
                  (clock Examples.storeUp) (generatedId Examples.storeUp)
                  Examples.withoutMetadata Examples.heartrateConfig) = []
  ∧ missing Examples.withoutMetadata "metadata" = true
  ∧ missing Examples.withoutMetadata "deviceId" = false
  ∧ missing Examples.withoutMetadata "bikeId" = false.
Proof. vm_compute. repeat split. Qed.



(** C6.  Whenever the validator returns a reading, its [anomalyDetected]
    flag is set exactly when the returned score is below 70, whatever the
    drop threshold does; a reading that scores in [50, 70) is flagged and
    still goes on to the save, where it is stored as soon as the store
    accepts it. *)
Theorem C6_anomaly_flag rt env topic message messageValue topicInfo rawData :
  heartbeat env = None →
  value message = Some messageValue →
  messageValue ≠ "" →
  parseEnhancedKafkaTopic topic = Some topicInfo →
  isControlTopic topicInfo = false →
  JSON_parse rt messageValue = inr rawData →
  let r := validateEnhancedKafkaDeviceData rt (clock env) (generatedId env)
             rawData (deviceConfig topicInfo) in
  let trace := eachMessage rt env topic message in
  (∀ d, data r = Some d →
        (data_anomalyDetected d = true ↔ qualityScore r < 70)
        ∧ data_qualityScore d = qualityScore r)
  ∧ (50 ≤ qualityScore r < 70 →
     ∃ d, data r = Some d ∧ data_anomalyDetected d = true
          ∧ (1 ≤ attempts trace)%nat
          ∧ (store env 1%nat = None →
             Stored 1 d (deviceId topicInfo) (deviceType topicInfo) ∈ trace)).
Proof.
  intros Hh Hv Hne Hp Hc Hj r trace.
  assert (∀ d, data r = Some d →
               (data_anomalyDetected d = true ↔ qualityScore r < 70)
               ∧ data_qualityScore d = qualityScore r) as Hflag.
  { intros d Hd.
    destruct (validate_with_data _ _ _ _ _ _ Hd) as (q & _ & Hq & _ & Hdq & Ha & _).
    fold r in Hq. rewrite Hq, Hdq, Ha. split; [|reflexivity].
    rewrite Z.ltb_lt. lia. }
  split; [exact Hflag|].
  intros [Hlow Hhigh].
  destruct (data r) as [d|] eqn:Hd.
  2:{ destruct (validate_without_data _ _ _ _ _ Hd) as [Hzero _].
      fold r in Hzero. lia. }
  exists d. split; [reflexivity|].
  split; [now apply (Hflag d)|].
  subst trace. rewrite (eachMessage_validated _ _ _ _ _ _ _ Hh Hv Hne Hp Hc Hj).
  unfold validateAndSave. fold r.
  replace (qualityScore r <? 50) with false by (symmetry; apply Z.ltb_ge; lia).
  rewrite andb_false_r, Hd.
  destruct (saveEnhancedDeviceData rt env (Some d) (deviceId topicInfo)
              (deviceType topicInfo) defaultMaxRetries) as [effects result] eqn:Hsave.
  destruct (save_default_result _ _ _ _ _ _ _ Hsave) as [_ Hres].
  split.
  - destruct result as [|lastError].
    + rewrite attempts_app. destruct Hres. lia.
    + rewrite !attempts_app. destruct Hres as (_ & -> & _). lia.
  - intros Hstore. unfold defaultMaxRetries in Hsave.
    rewrite (save_first_attempt _ _ _ _ _ _ _ _ Hd Hstore) in Hsave.
    injection Hsave as <- <-. apply elem_of_app. right. constructor.
Qed.

Lemma C6_anomaly_flag_witness :
  ∃ d, data (validateEnhancedKafkaDeviceData Examples.runtime
               (clock Examples.storeUp) (generatedId Examples.storeUp)
               Examples.scenarioBComplete Examples.heartrateConfig) = Some d
       ∧ data_anomalyDetected d = true
       ∧ Stored 1 d "000001" (Some heartRate)
         ∈ eachMessage Examples.runtime Examples.storeUp Examples.heartrateTopic
             (Examples.messageOf Examples.scenarioBCompleteText).
Proof.
  destruct (C6_anomaly_flag Examples.runtime Examples.storeUp
              Examples.heartrateTopic
              (Examples.messageOf Examples.scenarioBCompleteText)
              Examples.scenarioBCompleteText
              {| deviceId := "000001"; deviceType := Some heartRate;
                 deviceConfig := Examples.heartrateConfig; isControlTopic := false |}
              Examples.scenarioBComplete
              eq_refl eq_refl ltac:(discriminate) eq_refl eq_refl eq_refl)
    as [_ Hkept].
  destruct Hkept as (d & Hd & Ha & _ & Hstored);
    [vm_compute; split; [discriminate | reflexivity] |].
  exists d. split; [exact Hd|]. split; [exact Ha|]. apply Hstored. reflexivity.
Defined.

(** C10.  The validator leaves [data] out only on the path through its
    [catch], which reports the score 0 and [isValid] false; 0 is below the
    drop threshold, so the callback returns right after the dead-letter
    record of the validation failure and never reaches
    [validationResult.data!]: no save is attempted. *)
Theorem C10_absent_data_never_saved rt env topic message messageValue topicInfo rawData :
  heartbeat env = None →
  value message = Some messageValue →
  messageValue ≠ "" →
  parseEnhancedKafkaTopic topic = Some topicInfo →
  isControlTopic topicInfo = false →
  JSON_parse rt messageValue = inr rawData →
  let r := validateEnhancedKafkaDeviceData rt (clock env) (generatedId env)
             rawData (deviceConfig topicInfo) in
  let trace := eachMessage rt env topic message in
  data r = None →
  qualityScore r = 0 ∧ qualityScore r < 50 ∧ isValid r = false
  ∧ trace = [DlqPublish (topic +:+ ".dlq.v2") message VALIDATION_ERROR
               (ValidationErrors (errors r)) (ValidationContext (errors r) 0)]
  ∧ attempts trace = 0%nat.
Proof.
  intros Hh Hv Hne Hp Hc Hj r trace Hnone.
  destruct (validate_without_data _ _ _ _ _ Hnone) as [Hzero Hinvalid].
  fold r in Hzero, Hinvalid.
  assert (trace = [DlqPublish (topic +:+ ".dlq.v2") message VALIDATION_ERROR
                     (ValidationErrors (errors r)) (ValidationContext (errors r) 0)])
    as ->.
  { subst trace. rewrite (eachMessage_validated _ _ _ _ _ _ _ Hh Hv Hne Hp Hc Hj).
    unfold validateAndSave. fold r. now rewrite Hinvalid, Hzero. }
  rewrite Hzero. repeat split; auto; lia.
Qed.

Lemma C10_absent_data_never_saved_witness :
  attempts (eachMessage Examples.runtime Examples.storeUp Examples.heartrateTopic
              (Examples.messageOf "null")) = 0%nat.
Proof.
  pose proof (C10_absent_data_never_saved Examples.runtime Examples.storeUp
              Examples.heartrateTopic (Examples.messageOf "null") "null"
              {| deviceId := "000001"; deviceType := Some heartRate;
                 deviceConfig := Examples.heartrateConfig; isControlTopic := false |}
              JNull
              eq_refl eq_refl ltac:(discriminate) eq_refl eq_refl eq_refl)
    as Habsent.
  cbv zeta in Habsent.
  destruct Habsent as (_ & _ & _ & _ & Hnone); [vm_compute; reflexivity|].
  exact Hnone.
Defined.

End FeedClaims.

(** ** The distribution bridge *)

Section BridgeFacts.
Import Bridge.
Context (rt : JSRuntime).

Lemma sseId_startsWith now : JS.startsWith (sseId now) "sse_" = true.
Proof.
  unfold JS.startsWith, sseId.
  change ("sse_" +:+ pretty now) with (String "s" (String "s" (String "e" (String "_" (pretty now))))).
  destruct (pretty now); reflexivity.
Qed.

Lemma reap_lookup now (m : gmap string ConnectionInfo) key c :
  reap now m !! key = Some c ↔
  m !! key = Some c ∧ ¬ (now - lastActivity c > staleThreshold).
Proof. unfold reap. now rewrite map_lookup_filter_Some. Qed.

Lemma socketsIn_elem room (rs : gmap string (gset string)) socketId :
  socketId ∈ socketsIn room rs ↔ ∃ joined, rs !! socketId = Some joined ∧ room ∈ joined.
Proof.
  unfold socketsIn. rewrite list_elem_of_fmap. split.
  - intros ([k joined] & -> & Hin).
    apply elem_of_map_to_list, map_lookup_filter_Some in Hin as [Hk Hroom]. eauto.
  - intros (joined & Hk & Hroom). exists (socketId, joined). split; [reflexivity|].
    apply elem_of_map_to_list, map_lookup_filter_Some. auto.
Qed.

Lemma sseEntries_elem (m : gmap string ConnectionInfo) key c :
  (key, c) ∈ sseEntries m ↔ m !! key = Some c ∧ JS.startsWith key "sse_" = true.
Proof.
  unfold sseEntries. now rewrite elem_of_map_to_list, map_lookup_filter_Some.
Qed.

(** Who is sent what by the fan-out. *)
Lemma fanOut_emits st messageData now writeThrows socketId room messageData' :
  EmitSensorData socketId room messageData' ∈ (fanOut st messageData now writeThrows).2 ↔
  room = roomName (msg_deviceId messageData) (msg_deviceType messageData)
  ∧ messageData' = messageData
  ∧ ∃ joined, rooms st !! socketId = Some joined ∧ room ∈ joined.
Proof.
  unfold fanOut. cbn [snd]. rewrite elem_of_app, !list_elem_of_fmap. split.
  - intros [(sid & [= -> -> ->] & Hin) | ([k c] & [=] & _)].
    apply socketsIn_elem in Hin. auto.
  - intros (-> & -> & Hjoined). left. exists socketId. split; [reflexivity|].
    now apply socketsIn_elem.
Qed.

Lemma fanOut_writes st messageData now writeThrows key c :
  activeConnections st !! key = Some c →
  JS.startsWith key "sse_" = true →
  SseWrite (connection c) messageData (writeThrows key)
  ∈ (fanOut st messageData now writeThrows).2.
Proof.
  intros Hkey Hsse. unfold fanOut. cbn [snd]. apply elem_of_app. right.
  apply list_elem_of_fmap.
  exists (key, refresh (roomName (msg_deviceId messageData) (msg_deviceType messageData))
                 now c).
  split.
  - cbn [fst snd]. unfold refresh. now destruct (_ && _).
  - apply sseEntries_elem. split; [|assumption].
    now rewrite lookup_fmap, Hkey.
Qed.

Lemma run_snoc st history input :
  (run rt st (history ++ [input])).1 = (step rt (run rt st history).1 input).1.
Proof.
  revert st. induction history as [|i history IH]; intros st; simpl.
  - destruct (step rt st input) as [st' out]. reflexivity.
  - destruct (step rt st i) as [st' out]. specialize (IH st').
    destruct (run rt st' (history ++ [input])) as [st1 out1].
    destruct (run rt st' history) as [st2 out2]. exact IH.
Qed.

Lemma subscribedIn_snoc history input socketId deviceId type :
  subscribedIn history socketId deviceId type →
  subscribedIn (history ++ [input]) socketId deviceId type.
Proof.
  intros (deviceTypes & now & Hin & Htype). exists deviceTypes, now.
  split; [|assumption]. apply elem_of_app. now left.
Qed.

Lemma roomsOk_snoc history input st :
  roomsOk history st → roomsOk (history ++ [input]) st.
Proof.
  intros Hok socketId joined Hjoined.
  destruct (Hok socketId joined Hjoined) as [Hlen Hrooms].
  split; [assumption|]. intros room Hroom.
  destruct (Hrooms room Hroom) as [->|(d & t & -> & Hsub)]; [now left|].
  right. exists d, t. split; [reflexivity|]. now apply subscribedIn_snoc.
Qed.

Lemma touch_fields now c :
  id (touch now c) = id c ∧ type (touch now c) = type c
  ∧ connection (touch now c) = connection c
  ∧ subscriptions (touch now c) = subscriptions c.
Proof. repeat split. Qed.

Lemma refresh_fields room now c :
  id (refresh room now c) = id c ∧ type (refresh room now c) = type c
  ∧ connection (refresh room now c) = connection c
  ∧ subscriptions (refresh room now c) = subscriptions c.
Proof. unfold refresh. destruct (_ && _); repeat split. Qed.

(** One step keeps the registry and the rooms in order. *)
Lemma step_registryOk st input :
  registryOk st → registryOk (step rt st input).1.
Proof.
  intros Hok. unfold registryOk in *.
  destruct input as [request now|openedAt|socketId now|socketId deviceId deviceTypes now
                    |socketId|now|topic value now heartbeatFails generatedId writeThrows];
    simpl.
  - intros key c. rewrite lookup_insert_Some.
    intros [[<- <-]|[_ Hkey]]; [|now apply Hok].
    split; [reflexivity|]. intros _. apply sseId_startsWith.
  - intros key c. rewrite lookup_delete_Some. intros [_ Hkey]. now apply Hok.
  - intros key c. rewrite lookup_insert_Some.
    intros [[<- <-]|[_ Hkey]]; [|now apply Hok]. split; [reflexivity|discriminate].
  - destruct (rooms st !! socketId) as [joined|]; [|exact Hok].
    destruct (activeConnections st !! socketId) as [info|] eqn:Hinfo; [|exact Hok].
    simpl. intros key c. rewrite lookup_insert_Some.
    intros [[<- <-]|[_ Hkey]]; [|now apply Hok].
    exact (Hok _ _ Hinfo).
  - destruct (rooms st !! socketId); [|exact Hok].
    simpl. intros key c. rewrite lookup_delete_Some. intros [_ Hkey]. now apply Hok.
  - intros key c Hkey. apply reap_lookup in Hkey as [Hkey _]. now apply Hok.
  - destruct (routed rt topic value now heartbeatFails generatedId) as [messageData|];
      [|exact Hok].
    unfold fanOut. cbn [fst activeConnections]. intros key c.
    rewrite map_lookup_imap, lookup_fmap.
    destruct (activeConnections st !! key) as [c0|] eqn:Hkey; [|discriminate].
    simpl. destruct (Hok _ _ Hkey) as [Hid Hsse].
    pose proof (refresh_fields
                  (roomName (msg_deviceId messageData) (msg_deviceType messageData))
                  now c0) as (Hrid & Hrtype & _).
    destruct (JS.startsWith key "sse_"); [destruct (writeThrows key)|];
      intros [= <-]; cbn [id type touch]; rewrite ?Hrid, ?Hrtype; auto.
Qed.

Lemma step_roomsOk history st input :
  socketIdOk input → roomsOk history st →
  roomsOk (history ++ [input]) (step rt st input).1.
Proof.
  intros Hid Hok.
  pose proof (roomsOk_snoc history input st Hok) as Hok'.
  unfold roomsOk in Hok' |- *.
  destruct input as [request now|openedAt|socketId now|socketId deviceId deviceTypes now
                    |socketId|now|topic value now heartbeatFails generatedId writeThrows];
    simpl; try exact Hok'.
  - intros sid joined. rewrite lookup_insert_Some.
    intros [[<- <-]|[_ Hsid]]; [|now apply Hok'].
    split; [exact Hid|]. intros room Hroom. left. now apply elem_of_singleton in Hroom.
  - destruct (rooms st !! socketId) as [joined0|] eqn:Hjoined0; [|exact Hok'].
    destruct (activeConnections st !! socketId) as [info|]; [|exact Hok'].
    simpl. intros sid joined. rewrite lookup_insert_Some.
    intros [[<- <-]|[_ Hsid]]; [|now apply Hok'].
    destruct (Hok' _ _ Hjoined0) as [Hlen Hrooms]. split; [assumption|].
    intros room Hroom. apply elem_of_union in Hroom as [Hroom|Hroom]; [now apply Hrooms|].
    apply elem_of_list_to_set, list_elem_of_fmap in Hroom as (t & -> & Ht).
    right. exists deviceId, t. split; [reflexivity|].
    exists deviceTypes, now. split; [|assumption].
    apply elem_of_app. right. constructor.
  - destruct (rooms st !! socketId); [|exact Hok'].
    simpl. intros sid joined. rewrite lookup_delete_Some. intros [_ Hsid].
    now apply Hok'.
  - destruct (routed rt topic value now heartbeatFails generatedId); exact Hok'.
Qed.

Lemma run_invariants history :
  Forall socketIdOk history →
  registryOk (run rt initial history).1 ∧ roomsOk history (run rt initial history).1.
Proof.
  induction history as [|input history IH] using rev_ind; intros Hids.
  - split; intros k c Hk; cbn in Hk; rewrite lookup_empty in Hk; discriminate.
  - apply Forall_app in Hids as [Hids Hid]. rewrite Forall_singleton in Hid.
    destruct (IH Hids) as [Hreg Hrooms]. rewrite run_snoc.
    split; [apply step_registryOk | apply step_roomsOk]; assumption.
Qed.

(** Room names of device and type without underscore determine both. *)
Lemma append_nil (x : string) : "" +:+ x = x.
Proof. reflexivity. Qed.

Lemma append_cons c (a x : string) : String c a +:+ x = String c (a +:+ x).
Proof. reflexivity. Qed.

Lemma underscoreFree_append a b :
  underscoreFree (a +:+ String "_" b) = false.
Proof.
  induction a as [|c a IH]; rewrite ?append_cons, ?append_nil; simpl; [reflexivity|].
  rewrite IH. apply andb_false_r.
Qed.

Lemma separator_inj deviceId' type' deviceId type :
  underscoreFree deviceId = true → underscoreFree type = true →
  deviceId' +:+ "_" +:+ type' = deviceId +:+ "_" +:+ type →
  deviceId' = deviceId ∧ type' = type.
Proof.
  intros Hd Ht. revert deviceId Hd.
  induction deviceId' as [|c d' IH]; intros [|c0 d] Hd;
    rewrite ?append_cons, ?append_nil; intros Heq.
  - injection Heq as ->. auto.
  - injection Heq as <- _. simpl in Hd. discriminate.
  - injection Heq as -> <-. rewrite underscoreFree_append in Ht. discriminate.
  - injection Heq as -> Heq. simpl in Hd. apply andb_true_iff in Hd as [_ Hd].
    destruct (IH d Hd Heq) as [-> ->]. auto.
Qed.

Lemma roomName_inj deviceId' type' deviceId type :
  underscoreFree deviceId = true → underscoreFree type = true →
  roomName deviceId' type' = roomName deviceId type →
  deviceId' = deviceId ∧ type' = type.
Proof.
  unfold roomName. intros Hd Ht Heq.
  rewrite !append_cons, !append_nil in Heq. injection Heq as Heq.
  now apply separator_inj.
Qed.

(** The envelope of a routed message names the second and third segment of
    its topic. *)
Lemma routed_fields topic value now heartbeatFails generatedId messageData :
  routed rt topic value now heartbeatFails generatedId = Some messageData →
  msg_topic messageData = topic
  ∧ msg_deviceId messageData = default "" (JS.split "." topic !! 1%nat)
  ∧ msg_deviceType messageData = default "" (JS.split "." topic !! 2%nat)
  ∧ (3 ≤ length (JS.split "." topic))%nat.
Proof.
  unfold routed, buildMessageData.
  destruct heartbeatFails; [discriminate|].
  destruct value as [[|c text]|]; try discriminate.
  destruct (JSON_parse rt (String c text)) as [e|data]; [discriminate|].
  destruct (3 <=? length (JS.split "." topic))%nat eqn:Hlen; [|discriminate].
  apply Nat.leb_le in Hlen.
  destruct (JS.Get data "timestamp"); [discriminate|].
  destruct (JS.Get data "messageId"); [discriminate|].
  intros [= <-]. repeat split. exact Hlen.
Qed.

(** The topics the bridge subscribes to have device and type segments
    without underscore, and their room names are not 20 characters long. *)
Lemma topics_segments :
  Forall (λ topic,
            let deviceId := default "" (JS.split "." topic !! 1%nat) in
            let type := default "" (JS.split "." topic !! 2%nat) in
            underscoreFree deviceId = true ∧ underscoreFree type = true
            ∧ Nat.eqb (String.length (roomName deviceId type)) 20 = false)
    topics.
Proof.
  unfold topics. repeat (constructor; [vm_compute; repeat split|]). constructor.
Qed.

(** A [sensor_data] event of a message of a subscribed topic goes only to
    sockets that asked for the message's device and sensor type in a
    subscribe event at some point of the history. *)
Theorem sensor_data_goes_to_subscribers_only history st topic value now heartbeatFails
    generatedId writeThrows messageData socketId room' messageData' :
  Forall socketIdOk history →
  (run rt initial history).1 = st →
  topic ∈ topics →
  routed rt topic value now heartbeatFails generatedId = Some messageData →
  EmitSensorData socketId room' messageData'
  ∈ (step rt st (KafkaMessage topic value now heartbeatFails generatedId writeThrows)).2 →
  subscribedIn history socketId (msg_deviceId messageData) (msg_deviceType messageData).
Proof.
  intros Hids Hst Htopic Hrouted.
  destruct (run_invariants history Hids) as [_ Hrooms]. rewrite Hst in Hrooms.
  cbn [step]. rewrite Hrouted. intros Hemit.
  apply fanOut_emits in Hemit as (-> & _ & joined & Hjoined & Hroom).
  destruct (Hrooms _ _ Hjoined) as [Hlen Hwhy].
  destruct (routed_fields _ _ _ _ _ _ Hrouted) as (_ & Hd & Ht & _).
  pose proof topics_segments as Hsegments.
  rewrite Forall_forall in Hsegments.
  destruct (Hsegments topic Htopic) as (Hfd & Hft & Hlen').
  rewrite <- Hd in Hfd, Hlen'. rewrite <- Ht in Hft, Hlen'.
  destruct (Hwhy _ Hroom) as [Hself|(d & t & Hname & Hsub)].
  - rewrite Hself, Hlen in Hlen'. discriminate.
  - symmetry in Hname.
    destruct (roomName_inj _ _ _ _ Hfd Hft Hname) as [-> ->]. exact Hsub.
Qed.

End BridgeFacts.

Section BridgeClaims.
Import Bridge.

Lemma sensor_data_goes_to_subscribers_only_witness :
  subscribedIn Examples.quietStart Examples.socketA "000001" "heartrate".
Proof.
  apply (sensor_data_goes_to_subscribers_only Examples.runtime Examples.quietStart
           (run Examples.runtime initial Examples.quietStart).1
           Examples.heartrateTopic (Some Examples.completeText) 400500 false
           "msg_400500_k3x9q2m7p" Examples.noWriteFailure
           {| msg_topic := Examples.heartrateTopic;
              msg_deviceId := "000001";
              msg_deviceType := "heartrate";
              msg_isReport := false;
              msg_data := Examples.complete;
              msg_timestamp := inr 400500;
              msg_messageId := JString "msg_400500_k3x9q2m7p";
              msg_receivedAt := 400500 |}
           Examples.socketA "device_000001_heartrate"
           {| msg_topic := Examples.heartrateTopic;
              msg_deviceId := "000001";
              msg_deviceType := "heartrate";
              msg_isReport := false;
              msg_data := Examples.complete;
              msg_timestamp := inr 400500;
              msg_messageId := JString "msg_400500_k3x9q2m7p";
              msg_receivedAt := 400500 |}).
  - repeat constructor.
  - reflexivity.
  - apply list_elem_of_In. vm_compute. auto.
  - vm_compute. reflexivity.
  - vm_compute. constructor.
Defined.

(** C8.  The fan-out misses a stream that is open.  Two clients open
    [/events] in the same millisecond and neither closes; both are sent the
    initial frame, but both get the connection id [sse_2000], so the
    registry holds one entry for the two.  The heart-rate message that
    follows is emitted to the subscribed socket and written to the second
    stream only: the first stream receives nothing. *)
Theorem C8_same_millisecond_stream_is_missed :
  (run Examples.runtime initial Examples.twinStreams).2
  = [EmitSubscribed Examples.socketA "000001" ["heartrate"];
     SseConnected (ResponseHandle 1);
     SseConnected (ResponseHandle 2)]
  ∧ size (activeConnections (run Examples.runtime initial Examples.twinStreams).1)
    = 2%nat
  ∧ (step Examples.runtime (run Examples.runtime initial Examples.twinStreams).1
       Examples.promptMessage).2
    = [EmitSensorData Examples.socketA "device_000001_heartrate"
         {| msg_topic := Examples.heartrateTopic;
            msg_deviceId := "000001";
            msg_deviceType := "heartrate";
            msg_isReport := false;
            msg_data := Examples.complete;
            msg_timestamp := inr 3000;
            msg_messageId := JString "msg_3000_k3x9q2m7p";
            msg_receivedAt := 3000 |};
       SseWrite (ResponseHandle 2)
         {| msg_topic := Examples.heartrateTopic;
            msg_deviceId := "000001";
            msg_deviceType := "heartrate";
            msg_isReport := false;
            msg_data := Examples.complete;
            msg_timestamp := inr 3000;
            msg_messageId := JString "msg_3000_k3x9q2m7p";
            msg_receivedAt := 3000 |} false].
Proof.
  split; [|split]; vm_compute; reflexivity.
Qed.

(** C9.  A subscribe event without sensor-type list joins the rooms of all
    seven sensor types of the device and is acknowledged with the full
    list, provided the connection is still in the registry; for a
    connection the reaper has removed the handler returns at once: nothing
    is joined and nothing is acknowledged. *)
Theorem C9_subscribe_defaults rt st socketId deviceId now joined :
  rooms st !! socketId = Some joined →
  DEVICE_TYPES
  = ["heartrate"; "cadence"; "speed"; "power"; "resistance"; "incline"; "fan"]
  ∧ (∀ connectionInfo,
       activeConnections st !! socketId = Some connectionInfo →
       let st' := (step rt st (SocketSubscribe socketId deviceId None now)).1 in
       (step rt st (SocketSubscribe socketId deviceId None now)).2
       = [EmitSubscribed socketId deviceId DEVICE_TYPES]
       ∧ ∀ type, type ∈ DEVICE_TYPES →
           ∃ joined' c,
             rooms st' !! socketId = Some joined'
             ∧ roomName deviceId type ∈ joined'
             ∧ activeConnections st' !! socketId = Some c
             ∧ roomName deviceId type ∈ subscriptions c
             ∧ Bridge.deviceId c = Some deviceId
             ∧ lastActivity c = now)
  ∧ (activeConnections st !! socketId = None →
     step rt st (SocketSubscribe socketId deviceId None now) = (st, [])).
Proof.
  intros Hjoined. split; [reflexivity|]. split.
  - intros connectionInfo Hinfo. cbn [step]. rewrite Hjoined, Hinfo.
    change (default DEVICE_TYPES None) with DEVICE_TYPES.
    cbn [fst snd rooms activeConnections].
    split; [reflexivity|]. intros type Htype.
    eexists _, _. rewrite !lookup_insert_eq.
    unfold subscribe. cbn [subscriptions Bridge.deviceId lastActivity].
    repeat split; try reflexivity.
    + apply elem_of_union. right.
      apply elem_of_list_to_set, list_elem_of_fmap. eauto.
    + apply elem_of_union. right.
      apply elem_of_list_to_set, list_elem_of_fmap. eauto.
  - intros Hnone. cbn [step]. now rewrite Hjoined, Hnone.
Qed.

Lemma C9_subscribe_defaults_witness :
  (step Examples.runtime (run Examples.runtime initial Examples.promptStart).1
     (SocketSubscribe Examples.socketA "000001" None 500)).2
  = [EmitSubscribed Examples.socketA "000001" DEVICE_TYPES].
Proof.
  destruct (C9_subscribe_defaults Examples.runtime
              (run Examples.runtime initial Examples.promptStart).1
              Examples.socketA "000001" 500 {[Examples.socketA]})
    as (_ & Hregistered & _).
  - vm_compute. reflexivity.
  - destruct (Hregistered
                {| id := Examples.socketA; type := websocket; connectedAt := 0;
                   lastActivity := 0; subscriptions := ∅; deviceId := None;
                   connection := SocketHandle Examples.socketA |}) as [Hack _].
    + vm_compute. reflexivity.
    + exact Hack.
Defined.

(** A socket that connected and was reaped before it subscribed is still
    connected, but its subscribe event joins no room and gets no
    acknowledgement. *)
Lemma C9_reaped_socket_cannot_subscribe :
  rooms (run Examples.runtime initial Examples.silentStart).1 !! Examples.socketA
  = Some {[Examples.socketA]}
  ∧ activeConnections (run Examples.runtime initial Examples.silentStart).1
      !! Examples.socketA = None
  ∧ (step Examples.runtime (run Examples.runtime initial Examples.silentStart).1
       (SocketSubscribe Examples.socketA "000001" None 400100)).2 = []
  ∧ rooms (step Examples.runtime (run Examples.runtime initial Examples.silentStart).1
             (SocketSubscribe Examples.socketA "000001" None 400100)).1
      !! Examples.socketA
    = Some {[Examples.socketA]}.
Proof.
  split; [|split; [|split]]; vm_compute; reflexivity.
Qed.

(** C4.  The sweep removes a stale connection from the registry, and a
    stale stream connection is written nothing afterwards; but the sweep
    leaves the socket.io rooms alone, so a stale websocket that had
    subscribed is still sent the next message of its room.  Here a socket
    and a stream client have been idle for more than five minutes at the
    sweep: both leave the registry, and the heart-rate message that follows
    is emitted to the socket and to nobody else. *)
Theorem C4_reaped_socket_still_served :
  (∃ c, activeConnections (run Examples.runtime initial Examples.quietStart).1
          !! Examples.socketA = Some c
        ∧ type c = websocket
        ∧ (Examples.sweepTime - lastActivity c >? staleThreshold) = true)
  ∧ (∃ c, activeConnections (run Examples.runtime initial Examples.quietStart).1
            !! sseId 2000 = Some c
          ∧ type c = sse
          ∧ (Examples.sweepTime - lastActivity c >? staleThreshold) = true)
  ∧ activeConnections
      (run Examples.runtime initial
         (Examples.quietStart ++ [ReaperTick Examples.sweepTime])).1
    = ∅
  ∧ ∃ messageData,
      (step Examples.runtime
         (run Examples.runtime initial
            (Examples.quietStart ++ [ReaperTick Examples.sweepTime])).1
         Examples.lateMessage).2
      = [EmitSensorData Examples.socketA "device_000001_heartrate" messageData].
Proof.
  split; [|split; [|split]].
  - eexists. split; [vm_compute; reflexivity|]. split; reflexivity.
  - eexists. split; [vm_compute; reflexivity|]. split; reflexivity.
  - vm_compute. reflexivity.
  - eexists. vm_compute. reflexivity.
Qed.

End BridgeClaims.

(** * Further properties of the ingestion consumer *)

Section ValidatorProperties.
Import Feed.
Context (rt : JSRuntime) (now : float) (generatedId : string).

Lemma penalties_nonneg errors : 0 ≤ penalties errors.
Proof.
  induction errors as [|e errors IH]; simpl; [lia|].
  destruct e; simpl; lia.
Qed.

Lemma penalties_elem e errors : e ∈ errors → penalty e ≤ penalties errors.
Proof.
  induction errors as [|e' errors IH]; intros Hin.
  - now apply not_elem_of_nil in Hin.
  - apply elem_of_cons in Hin as [->|Hin]; simpl.
    + pose proof (penalties_nonneg errors). lia.
    + specialize (IH Hin). destruct e'; simpl; lia.
Qed.

(** What the scored checks establish about the error list survives the
    rest of the [try] block. *)
Lemma tryBlock_errors (P : list ValidationError → Prop) raw deviceConfig s :
  onNormal (checks rt now raw deviceConfig) (λ _ s', P (var_errors s')) s →
  onNormal (tryBlock rt now generatedId raw deviceConfig) (λ _ s', P (var_errors s')) s.
Proof.
  intros Hchecks. unfold tryBlock.
  apply onNormal_bind. eapply onNormal_mono; [exact Hchecks|].
  intros [] s1 HP. cbv beta.
  apply onNormal_bind. eapply onNormal_mono; [apply completeness_spec|].
  intros [] s2 [Herr _]. cbv beta.
  eapply onNormal_mono; [apply enhance_spec|].
  intros d s3 (-> & _). now rewrite Herr.
Qed.

Lemma validate_errors (P : list ValidationError → Prop) raw deviceConfig d :
  onNormal (checks rt now raw deviceConfig) (λ _ s', P (var_errors s'))
    {| var_errors := []; var_qualityScore := 100 |} →
  data (validateEnhancedKafkaDeviceData rt now generatedId raw deviceConfig) = Some d →
  P (errors (validateEnhancedKafkaDeviceData rt now generatedId raw deviceConfig)).
Proof.
  intros Hchecks. apply (tryBlock_errors P) in Hchecks.
  unfold validateEnhancedKafkaDeviceData, onNormal in *.
  destruct (tryBlock rt now generatedId raw deviceConfig _); cbn; [auto|discriminate].
Qed.

(** The returned score always lies between 0 and 100, and the reading
    carries the same score as the result. *)
Theorem score_within_0_100 raw deviceConfig :
  0 ≤ qualityScore (validateEnhancedKafkaDeviceData rt now generatedId raw deviceConfig)
    ≤ 100
  ∧ ∀ d,
      data (validateEnhancedKafkaDeviceData rt now generatedId raw deviceConfig) = Some d →
      data_qualityScore d
      = qualityScore (validateEnhancedKafkaDeviceData rt now generatedId raw deviceConfig).
Proof.
  destruct (data (validateEnhancedKafkaDeviceData rt now generatedId raw deviceConfig))
    as [d|] eqn:Hd.
  - destruct (validate_with_data _ _ _ _ _ _ Hd) as (q & Hq & Hr & _ & Hdq & _).
    pose proof (penalties_nonneg
                  (errors (validateEnhancedKafkaDeviceData rt now generatedId
                             raw deviceConfig))) as Hpen.
    split.
    + rewrite Hr.
      destruct (missing raw "deviceId"), (missing raw "bikeId"), (missing raw "metadata");
        lia.
    + intros d' [= <-]. now rewrite Hdq, Hr.
  - destruct (validate_without_data _ _ _ _ _ Hd) as [-> _].
    split; [lia | discriminate].
Qed.

(** A reading that passes every check loses at most the 12 completeness
    points: it scores 88 or more, is returned, and is not flagged
    anomalous. *)
Theorem valid_reading_scores_at_least_88 raw deviceConfig :
  isValid (validateEnhancedKafkaDeviceData rt now generatedId raw deviceConfig) = true →
  88 ≤ qualityScore (validateEnhancedKafkaDeviceData rt now generatedId raw deviceConfig)
  ∧ ∃ d,
      data (validateEnhancedKafkaDeviceData rt now generatedId raw deviceConfig) = Some d
      ∧ data_anomalyDetected d = false.
Proof.
  intros Hvalid.
  destruct (data (validateEnhancedKafkaDeviceData rt now generatedId raw deviceConfig))
    as [d|] eqn:Hd.
  - destruct (validate_with_data _ _ _ _ _ _ Hd) as (q & Hq & Hr & Hv & _ & Ha & _).
    rewrite Hv in Hvalid. apply Nat.eqb_eq, nil_length_inv in Hvalid.
    rewrite Hvalid in Hq. simpl in Hq.
    assert (88 ≤ q) as Hq88.
    { destruct (missing raw "deviceId"), (missing raw "bikeId"), (missing raw "metadata");
        lia. }
    split; [rewrite Hr; lia|].
    exists d. split; [reflexivity|]. rewrite Ha. apply Z.ltb_ge. lia.
  - destruct (validate_without_data _ _ _ _ _ Hd) as [_ Hinvalid]. congruence.
Qed.

End ValidatorProperties.

Section ValidatorExamples.
Import Feed.

Lemma valid_reading_scores_at_least_88_witness :
  88 ≤ qualityScore (validateEnhancedKafkaDeviceData Examples.runtime
                       (clock Examples.storeUp) (generatedId Examples.storeUp)
                       Examples.withoutMetadata Examples.heartrateConfig).
Proof.
  destruct (valid_reading_scores_at_least_88 Examples.runtime
              (clock Examples.storeUp) (generatedId Examples.storeUp)
              Examples.withoutMetadata Examples.heartrateConfig) as [Hscore _].
  - vm_compute. reflexivity.
  - exact Hscore.
Defined.

End ValidatorExamples.

Section ValidatorChecks.
Import Feed.
Context (rt : JSRuntime) (now : float) (generatedId : string).

Ltac resolve_reads :=
  repeat match goal with
    | H : inr _ = inr _ |- _ => injection H as H; try subst
    | H : JS.Get ?r ?k = inr ?a, H' : JS.Get ?r ?k = inr ?b |- _ =>
        rewrite H in H'; injection H' as H'; try subst
    | H : context [JS.lessThan _ (JNumber _) _] |- _ =>
        unfold JS.lessThan, JS.ToNumber in H
    | H : context [JS.greaterThan _ (JNumber _) _] |- _ =>
        unfold JS.greaterThan, JS.ToNumber in H
    | H : rulesOf (OwnEntry _) = inr _ |- _ => cbn [rulesOf] in H
    end.

Lemma checks_records_range raw entry x s :
  JS.Get raw "value" = inr (JNumber x) →
  PrimFloat.ltb x (min (validationRules entry))
  || PrimFloat.ltb (max (validationRules entry)) x = true →
  onNormal (checks rt now raw (OwnEntry entry))
    (λ _ s', ∃ shown, ValueOutOfRange shown (validationRules entry) ∈ var_errors s') s.
Proof.
  intros Hvalue Hrange. unfold checks.
  try_steps; resolve_reads; cbn [var_errors].
  all: try congruence.
  all: try (match goal with
            | H : PrimFloat.ltb _ _ = false, H' : PrimFloat.ltb _ _ = false |- _ =>
                rewrite H, H' in Hrange; discriminate
            end).
  all: match goal with |- context [ValueOutOfRange ?a _] => exists a end.
  all: rewrite !elem_of_app, !list_elem_of_singleton; tauto.
Qed.

Lemma checks_records_unit raw entry unitName s :
  JS.Get raw "unitName" = inr unitName →
  JS.strictEqString unitName (unit (validationRules entry)) = false →
  onNormal (checks rt now raw (OwnEntry entry))
    (λ _ s', ∃ shown, UnitMismatch (unit (validationRules entry)) shown ∈ var_errors s') s.
Proof.
  intros Hunit Hdiffers. unfold checks.
  try_steps; resolve_reads; cbn [var_errors].
  all: try (rewrite Hdiffers in *; discriminate).
  all: match goal with |- context [UnitMismatch _ ?a] => exists a end.
  all: rewrite !elem_of_app, !list_elem_of_singleton; tauto.
Qed.

Lemma checks_fresh_timestamp raw deviceConfig timestamp s :
  JS.Get raw "timestamp" = inr timestamp →
  JS.ToBoolean timestamp = false →
  TimestampOutOfWindow ∉ var_errors s →
  onNormal (checks rt now raw deviceConfig)
    (λ _ s', TimestampOutOfWindow ∉ var_errors s') s.
Proof.
  intros Hstamp Hfalsy Hnot. unfold checks.
  try_steps; resolve_reads; cbn [var_errors].
  all: try congruence.
  all: try (match goal with
            | H : PrimFloat.ltb 300000 (PrimFloat.abs (now - now)) = true |- _ =>
                rewrite self_difference_small in H; discriminate
            end).
  all: rewrite ?not_elem_of_app, ?list_elem_of_singleton; intuition discriminate.
Qed.

(** A recorded error makes the reading invalid and costs its penalty. *)
Lemma recorded_error_costs raw deviceConfig e :
  (∀ d, data (validateEnhancedKafkaDeviceData rt now generatedId raw deviceConfig) = Some d →
        e ∈ errors (validateEnhancedKafkaDeviceData rt now generatedId raw deviceConfig)) →
  isValid (validateEnhancedKafkaDeviceData rt now generatedId raw deviceConfig) = false
  ∧ qualityScore (validateEnhancedKafkaDeviceData rt now generatedId raw deviceConfig)
    ≤ Z.max 0 (100 - penalty e).
Proof.
  intros Hrecorded.
  destruct (data (validateEnhancedKafkaDeviceData rt now generatedId raw deviceConfig))
    as [d|] eqn:Hd.
  - specialize (Hrecorded d eq_refl).
    destruct (validate_with_data _ _ _ _ _ _ Hd) as (q & Hq & Hr & Hv & _).
    pose proof (penalties_elem _ _ Hrecorded) as Hpen.
    split.
    + rewrite Hv.
      destruct (errors (validateEnhancedKafkaDeviceData rt now generatedId raw deviceConfig));
        [now apply not_elem_of_nil in Hrecorded | reflexivity].
    + rewrite Hr.
      destruct (missing raw "deviceId"), (missing raw "bikeId"), (missing raw "metadata");
        lia.
  - destruct (validate_without_data _ _ _ _ _ Hd) as [-> ->]. split; [reflexivity|lia].
Qed.

(** A numeric value outside the range of its sensor type makes the reading
    invalid, with a score of 60 at most. *)
Theorem out_of_range_value_is_rejected raw entry x :
  JS.Get raw "value" = inr (JNumber x) →
  PrimFloat.ltb x (min (validationRules entry))
  || PrimFloat.ltb (max (validationRules entry)) x = true →
  isValid (validateEnhancedKafkaDeviceData rt now generatedId raw (OwnEntry entry)) = false
  ∧ qualityScore (validateEnhancedKafkaDeviceData rt now generatedId raw (OwnEntry entry))
    ≤ 60.
Proof.
  intros Hvalue Hrange.
  pose proof (validate_errors rt now generatedId
                (λ errors, ∃ shown, ValueOutOfRange shown (validationRules entry) ∈ errors)
                raw (OwnEntry entry)) as Hrecorded.
  assert (∀ d, data (validateEnhancedKafkaDeviceData rt now generatedId raw
                       (OwnEntry entry)) = Some d →
               ∃ shown, ValueOutOfRange shown (validationRules entry)
                        ∈ errors (validateEnhancedKafkaDeviceData rt now generatedId raw
                                    (OwnEntry entry))) as Hin.
  { intros d Hd. apply (Hrecorded d); [|exact Hd].
    now apply checks_records_range with (x := x). }
  destruct (data (validateEnhancedKafkaDeviceData rt now generatedId raw (OwnEntry entry)))
    as [d|] eqn:Hd.
  - destruct (Hin d eq_refl) as [shown Hshown].
    apply (recorded_error_costs raw (OwnEntry entry)
             (ValueOutOfRange shown (validationRules entry))).
    intros d' _. exact Hshown.
  - destruct (validate_without_data _ _ _ _ _ Hd) as [-> ->]. split; [reflexivity|lia].
Qed.

(** A unit name other than the one expected for the sensor type makes the
    reading invalid, with a score of 80 at most. *)
Theorem unit_mismatch_is_rejected raw entry unitName :
  JS.Get raw "unitName" = inr unitName →
  JS.strictEqString unitName (unit (validationRules entry)) = false →
  isValid (validateEnhancedKafkaDeviceData rt now generatedId raw (OwnEntry entry)) = false
  ∧ qualityScore (validateEnhancedKafkaDeviceData rt now generatedId raw (OwnEntry entry))
    ≤ 80.
Proof.
  intros Hunit Hdiffers.
  pose proof (validate_errors rt now generatedId
                (λ errors, ∃ shown, UnitMismatch (unit (validationRules entry)) shown
                                    ∈ errors)
                raw (OwnEntry entry)) as Hrecorded.
  destruct (data (validateEnhancedKafkaDeviceData rt now generatedId raw (OwnEntry entry)))
    as [d|] eqn:Hd.
  - destruct (Hrecorded d) as [shown Hshown]; [|reflexivity|].
    { now apply checks_records_unit with (unitName := unitName). }
    apply (recorded_error_costs raw (OwnEntry entry)
             (UnitMismatch (unit (validationRules entry)) shown)).
    intros d' _. exact Hshown.
  - destruct (validate_without_data _ _ _ _ _ Hd) as [-> ->]. split; [reflexivity|lia].
Qed.

(** A payload without timestamp, or with a falsy one such as 0, is taken
    to be from now: the returned reading never carries the staleness
    error, whatever the clock reads. *)
Theorem absent_timestamp_is_never_stale raw deviceConfig timestamp d :
  JS.Get raw "timestamp" = inr timestamp →
  JS.ToBoolean timestamp = false →
  data (validateEnhancedKafkaDeviceData rt now generatedId raw deviceConfig) = Some d →
  TimestampOutOfWindow
  ∉ errors (validateEnhancedKafkaDeviceData rt now generatedId raw deviceConfig).
Proof.
  intros Hstamp Hfalsy Hd.
  apply (validate_errors rt now generatedId (λ errors, TimestampOutOfWindow ∉ errors)
           raw deviceConfig d); [|exact Hd].
  apply checks_fresh_timestamp with (timestamp := timestamp); auto.
  apply not_elem_of_nil.
Qed.

End ValidatorChecks.

Section ValidatorCheckExamples.
Import Feed.

Lemma out_of_range_value_is_rejected_witness :
  qualityScore (validateEnhancedKafkaDeviceData Examples.runtime
                  (clock Examples.storeUp) (generatedId Examples.storeUp)
                  Examples.scenarioBComplete (OwnEntry Examples.heartrateEntry)) ≤ 60.
Proof.
  destruct (out_of_range_value_is_rejected Examples.runtime
              (clock Examples.storeUp) (generatedId Examples.storeUp)
              Examples.scenarioBComplete Examples.heartrateEntry 250)
    as [_ Hscore].
  - reflexivity.
  - vm_compute. reflexivity.
  - exact Hscore.
Defined.

Lemma unit_mismatch_is_rejected_witness :
  qualityScore (validateEnhancedKafkaDeviceData Examples.runtime
                  (clock Examples.storeUp) (generatedId Examples.storeUp)
                  Examples.wrongUnit (OwnEntry Examples.heartrateEntry)) ≤ 80.
Proof.
  destruct (unit_mismatch_is_rejected Examples.runtime
              (clock Examples.storeUp) (generatedId Examples.storeUp)
              Examples.wrongUnit Examples.heartrateEntry (JString "rpm"))
    as [_ Hscore].
  - reflexivity.
  - reflexivity.
  - exact Hscore.
Defined.

Lemma absent_timestamp_is_never_stale_witness :
  JS.ToBoolean (JNumber 0) = false
  ∧ TimestampOutOfWindow
    ∉ errors (validateEnhancedKafkaDeviceData Examples.runtime
                (clock Examples.storeUp) (generatedId Examples.storeUp)
                Examples.epochZero Examples.heartrateConfig).
Proof.
  split; [reflexivity|].
  pose proof (absent_timestamp_is_never_stale Examples.runtime
                (clock Examples.storeUp) (generatedId Examples.storeUp)
                Examples.epochZero Examples.heartrateConfig (JNumber 0)) as Hfresh.
  destruct (data (validateEnhancedKafkaDeviceData Examples.runtime
                    (clock Examples.storeUp) (generatedId Examples.storeUp)
                    Examples.epochZero Examples.heartrateConfig)) as [d|] eqn:Hd.
  - apply (Hfresh d); reflexivity.
  - vm_compute in Hd. discriminate Hd.
Defined.

End ValidatorCheckExamples.

Section ConsumerProperties.
Import Feed.
Context (rt : JSRuntime) (env : Environment).

Lemma count_app kind t1 t2 : count kind (t1 ++ t2) = (count kind t1 + count kind t2)%nat.
Proof. unfold count. now rewrite List.filter_app, length_app. Qed.

Lemma count_pause kind attempt maxRetries :
  kind (Sleep (backoff attempt (random env attempt))) = false →
  count kind (if (attempt <? maxRetries)%nat
              then [Sleep (backoff attempt (random env attempt))] else []) = 0%nat.
Proof. intros Hkind. destruct (attempt <? maxRetries)%nat; unfold count; simpl; now rewrite ?Hkind. Qed.

Lemma trySave_stored deviceData attempt d :
  trySave rt env deviceData attempt = inr d →
  deviceData = Some d ∧ store env attempt = None.
Proof.
  unfold trySave. destruct deviceData as [d'|]; [|discriminate].
  destruct (JS.ToNumber rt (data_timestamp d')); [discriminate|].
  destruct (store env attempt); [discriminate|]. intros [= ->]. auto.
Qed.

(** What the retry loop writes: at most one document, with its metrics,
    taken from the reading it was given, at an attempt the store accepted. *)
Lemma retryLoop_stores deviceData deviceId deviceType maxRetries :
  ∀ iterations attempt lastError trace result,
    retryLoop rt env deviceData deviceId deviceType maxRetries
      iterations attempt lastError = (trace, result) →
    count isMetrics trace = count isStored trace
    ∧ count isStored trace = (match result with Saved => 1 | Rejected _ => 0 end)%nat
    ∧ ∀ a d i t, Stored a d i t ∈ trace →
        deviceData = Some d ∧ i = deviceId ∧ t = deviceType
        ∧ store env a = None ∧ (attempt ≤ a < attempt + iterations)%nat.
Proof.
  induction iterations as [|k IH]; intros attempt lastError trace result; simpl.
  - intros [= <- <-]. split; [reflexivity|]. split; [reflexivity|].
    intros a d i t Hin. now apply not_elem_of_nil in Hin.
  - destruct (trySave rt env deviceData attempt) as [error|d] eqn:Htry.
    + destruct (retryLoop rt env deviceData deviceId deviceType maxRetries k
                  (S attempt) (Some error)) as [effects result'] eqn:Hrest.
      intros [= <- <-].
      destruct (IH _ _ _ _ Hrest) as (Hm & Hs & Hin).
      change (SaveFailed attempt error ::
                (if (attempt <? maxRetries)%nat
                 then [Sleep (backoff attempt (random env attempt))] else []) ++ effects)
        with ([SaveFailed attempt error] ++
                (if (attempt <? maxRetries)%nat
                 then [Sleep (backoff attempt (random env attempt))] else []) ++ effects).
      rewrite !count_app, !count_pause by reflexivity.
      split; [now rewrite Hm|]. split; [exact Hs|].
      intros a d i t Hstored.
      rewrite !elem_of_app, list_elem_of_singleton in Hstored.
      destruct Hstored as [Hstored|[Hstored|Hstored]]; [discriminate| |].
      * destruct (attempt <? maxRetries)%nat.
        -- apply list_elem_of_singleton in Hstored. discriminate.
        -- now apply not_elem_of_nil in Hstored.
      * destruct (Hin _ _ _ _ Hstored) as (? & ? & ? & ? & ?).
        repeat split; auto; lia.
    + intros [= <- <-].
      destruct (trySave_stored _ _ _ Htry) as [Hd Hstore].
      split; [reflexivity|]. split; [reflexivity|].
      intros a d' i t Hstored.
      rewrite elem_of_cons, list_elem_of_singleton in Hstored.
      destruct Hstored as [Hstored|Hstored]; [|discriminate].
      injection Hstored as -> -> -> ->. repeat split; auto; lia.
Qed.



Lemma sendToEnhancedDLQ_elem topic message errorType error context e :
  e ∈ sendToEnhancedDLQ topic message errorType error context →
  e = DlqPublish (topic +:+ ".dlq.v2") message errorType error context.
Proof.
  unfold sendToEnhancedDLQ. destruct error; intros Hin;
    solve [now apply list_elem_of_singleton in Hin | now apply not_elem_of_nil in Hin].
Qed.

Lemma sendToEnhancedDLQ_counts topic message errorType error context :
  (count isDlq (sendToEnhancedDLQ topic message errorType error context) ≤ 1)%nat
  ∧ count isStored (sendToEnhancedDLQ topic message errorType error context) = 0%nat
  ∧ count isMetrics (sendToEnhancedDLQ topic message errorType error context) = 0%nat.
Proof. unfold sendToEnhancedDLQ, count. destruct error; simpl; auto. Qed.

Lemma not_deadLettered_count trace :
  deadLettered trace = false →
  count isDlq trace = 0%nat ∧ ∀ e, e ∈ trace → isDlq e = false.
Proof.
  unfold deadLettered, count.
  induction trace as [|e trace IH]; simpl.
  - intros _. split; [reflexivity|]. intros e Hin. now apply not_elem_of_nil in Hin.
  - rewrite orb_false_iff. intros [He Ht]. destruct (IH Ht) as [Hcount Hall].
    rewrite He. split; [exact Hcount|].
    intros e' Hin. apply elem_of_cons in Hin as [->|Hin]; auto.
Qed.

(** The pieces of what the callback does once the payload is parsed. *)
Lemma validateAndSave_shape topic message topicInfo rawData :
  let r := validateEnhancedKafkaDeviceData rt (clock env) (generatedId env)
             rawData (deviceConfig topicInfo) in
  ∃ reported effects final,
    validateAndSave rt env topic message topicInfo rawData = reported ++ effects ++ final
    ∧ (reported = [] ∨
       reported = [DlqPublish (topic +:+ ".dlq.v2") message VALIDATION_ERROR
                     (ValidationErrors (errors r))
                     (ValidationContext (errors r) (qualityScore r))])
    ∧ (final = [] ∨
       ∃ error, final = [DlqPublish (topic +:+ ".dlq.v2") message DATABASE_SAVE_ERROR
                           error (DeviceDataContext (data r))])
    ∧ (effects = [] ∨
       (negb (isValid r) && (qualityScore r <? 50) = false
        ∧ ∃ result, saveEnhancedDeviceData rt env (data r) (deviceId topicInfo)
                      (deviceType topicInfo) defaultMaxRetries = (effects, result))).
Proof.
  intros r. unfold validateAndSave. fold r.
  destruct (negb (isValid r) && (qualityScore r <? 50)) eqn:Hdrop.
  - exists (if isValid r then []
            else sendToEnhancedDLQ topic message VALIDATION_ERROR
                   (ValidationErrors (errors r))
                   (ValidationContext (errors r) (qualityScore r))), [], [].
    rewrite !app_nil_r. split; [reflexivity|].
    split; [destruct (isValid r); auto|]. auto.
  - destruct (saveEnhancedDeviceData rt env (data r) (deviceId topicInfo)
                (deviceType topicInfo) defaultMaxRetries) as [effects result] eqn:Hsave.
    exists (if isValid r then []
            else sendToEnhancedDLQ topic message VALIDATION_ERROR
                   (ValidationErrors (errors r))
                   (ValidationContext (errors r) (qualityScore r))), effects.
    destruct result as [|saveError].
    + exists []. rewrite app_nil_r. split; [reflexivity|].
      split; [destruct (isValid r); auto|]. split; [auto|]. right. eauto.
    + exists (sendToEnhancedDLQ topic message DATABASE_SAVE_ERROR
                (thrown saveError) (DeviceDataContext (data r))).
      split; [reflexivity|].
      split; [destruct (isValid r); auto|].
      split; [|right; eauto].
      unfold sendToEnhancedDLQ. destruct (thrown saveError); eauto.
Qed.

(** The callback either ends early, with nothing or with a single
    dead-letter record on [<topic>.dlq.v2], or goes on to validate. *)
Lemma eachMessage_shape topic message :
  eachMessage rt env topic message = []
  ∨ (∃ errorType error context,
       eachMessage rt env topic message
       = [DlqPublish (topic +:+ ".dlq.v2") message errorType error context]
       ∧ (errorType = UNEXPECTED_ERROR ∨ errorType = INVALID_TOPIC_FORMAT
          ∨ errorType = JSON_PARSE_ERROR))
  ∨ (heartbeat env = None
     ∧ ∃ messageValue topicInfo rawData,
         value message = Some messageValue
         ∧ parseEnhancedKafkaTopic topic = Some topicInfo
         ∧ isControlTopic topicInfo = false
         ∧ JSON_parse rt messageValue = inr rawData
         ∧ eachMessage rt env topic message
           = validateAndSave rt env topic message topicInfo rawData).
Proof.
  unfold eachMessage.
  destruct (heartbeat env) as [error|]; [right; left; eauto 8|].
  destruct (value message) as [[|c text]|]; [now left| |now left].
  destruct (parseEnhancedKafkaTopic topic) as [topicInfo|]; [|right; left; eauto 8].
  destruct (isControlTopic topicInfo) eqn:Hcontrol; [now left|].
  destruct (JSON_parse rt (String c text)) as [parseError|rawData] eqn:Hparse;
    [right; left; eauto 8|].
  right. right. split; [reflexivity|]. eauto 10.
Qed.

(** Whatever the callback dead-letters goes to [<topic>.dlq.v2] and carries
    the consumed message, and it publishes at most two such records. *)
Theorem dead_letters_go_to_dlq_v2 topic message :
  (∀ dlqTopic original errorType error context,
     DlqPublish dlqTopic original errorType error context
     ∈ eachMessage rt env topic message →
     dlqTopic = topic +:+ ".dlq.v2" ∧ original = message)
  ∧ (count isDlq (eachMessage rt env topic message) ≤ 2)%nat.
Proof.
  destruct (eachMessage_shape topic message)
    as [->|[(errorType & error & context & -> & _)|(_ & mv & info & raw & _ & _ & _ & _ & ->)]].
  - split; [|unfold count; simpl; lia].
    intros ? ? ? ? ? Hin. now apply not_elem_of_nil in Hin.
  - split; [|unfold count; simpl; lia].
    intros ? ? ? ? ? Hin. apply list_elem_of_singleton in Hin. now injection Hin as -> -> _ _ _.
  - destruct (validateAndSave_shape topic message info raw)
      as (reported & effects & final & -> & Hreported & Hfinal & Heffects).
    assert (count isDlq effects = 0%nat ∧ ∀ e, e ∈ effects → isDlq e = false)
      as [Hnone Hnot].
    { destruct Heffects as [->|(_ & result & Hsave)].
      - split; [reflexivity|]. intros e Hin. now apply not_elem_of_nil in Hin.
      - apply not_deadLettered_count.
        now destruct (save_default_result _ _ _ _ _ _ _ Hsave). }
    split.
    + intros dlqTopic original errorType error context Hin.
      rewrite !elem_of_app in Hin. destruct Hin as [Hin|[Hin|Hin]].
      * destruct Hreported as [->| ->]; [now apply not_elem_of_nil in Hin|].
        apply list_elem_of_singleton in Hin. now injection Hin as -> -> _ _ _.
      * apply Hnot in Hin. discriminate.
      * destruct Hfinal as [->|[error' ->]]; [now apply not_elem_of_nil in Hin|].
        apply list_elem_of_singleton in Hin. now injection Hin as -> -> _ _ _.
    + rewrite !count_app, Hnone.
      destruct Hreported as [->| ->], Hfinal as [->|[error' ->]]; unfold count; simpl; lia.
Qed.

(** The callback stores at most one document, and publishes processing
    metrics exactly when it stored one. *)
Theorem stores_at_most_once topic message :
  (count isStored (eachMessage rt env topic message) ≤ 1)%nat
  ∧ count isMetrics (eachMessage rt env topic message)
    = count isStored (eachMessage rt env topic message).
Proof.
  destruct (eachMessage_shape topic message)
    as [->|[(errorType & error & context & -> & _)|(_ & mv & info & raw & _ & _ & _ & _ & ->)]].
  - unfold count; simpl; split; [lia|reflexivity].
  - unfold count; simpl; split; [lia|reflexivity].
  - destruct (validateAndSave_shape topic message info raw)
      as (reported & effects & final & -> & Hreported & Hfinal & Heffects).
    rewrite !count_app.
    assert (count isStored reported = 0 ∧ count isMetrics reported = 0)%nat as [-> ->]
      by (destruct Hreported as [->| ->]; split; reflexivity).
    assert (count isStored final = 0 ∧ count isMetrics final = 0)%nat as [-> ->]
      by (destruct Hfinal as [->|[error' ->]]; split; reflexivity).
    destruct Heffects as [->|(_ & result & Hsave)].
    + unfold count; simpl; split; [lia|reflexivity].
    + unfold saveEnhancedDeviceData in Hsave.
      destruct (retryLoop_stores _ _ _ _ _ _ _ _ _ Hsave) as (Hm & Hs & _).
      rewrite Hm, Hs. destruct result; split; lia.
Qed.

(** Nothing is stored unless the message passed every gate: the heartbeat
    resolved, the topic is a known data topic, the payload parsed, the
    validator returned the very reading that is stored, valid or scoring at
    least 50, and the store accepted the write at one of the three
    attempts. *)
Theorem stored_reading_was_validated topic message attempt d deviceId' deviceType' :
  Stored attempt d deviceId' deviceType' ∈ eachMessage rt env topic message →
  heartbeat env = None
  ∧ ∃ messageValue topicInfo rawData,
      value message = Some messageValue
      ∧ parseEnhancedKafkaTopic topic = Some topicInfo
      ∧ isControlTopic topicInfo = false
      ∧ JSON_parse rt messageValue = inr rawData
      ∧ data (validateEnhancedKafkaDeviceData rt (clock env) (generatedId env)
                rawData (deviceConfig topicInfo)) = Some d
      ∧ (isValid (validateEnhancedKafkaDeviceData rt (clock env) (generatedId env)
                    rawData (deviceConfig topicInfo)) = true
         ∨ 50 ≤ qualityScore (validateEnhancedKafkaDeviceData rt (clock env)
                                (generatedId env) rawData (deviceConfig topicInfo)))
      ∧ deviceId' = deviceId topicInfo
      ∧ deviceType' = deviceType topicInfo
      ∧ store env attempt = None
      ∧ (1 ≤ attempt ≤ 3)%nat.
Proof.
  destruct (eachMessage_shape topic message)
    as [->|[(errorType & error & context & -> & _)
           |(Hbeat & mv & info & raw & Hv & Hp & Hc & Hj & ->)]].
  - intros Hin. now apply not_elem_of_nil in Hin.
  - intros Hin. apply list_elem_of_singleton in Hin. discriminate.
  - destruct (validateAndSave_shape topic message info raw)
      as (reported & effects & final & -> & Hreported & Hfinal & Heffects).
    rewrite !elem_of_app. intros [Hin|[Hin|Hin]].
    + destruct Hreported as [->| ->];
        [now apply not_elem_of_nil in Hin
        |apply list_elem_of_singleton in Hin; discriminate].
    + destruct Heffects as [->|(Hkept & result & Hsave)];
        [now apply not_elem_of_nil in Hin|].
      unfold saveEnhancedDeviceData in Hsave.
      destruct (retryLoop_stores _ _ _ _ _ _ _ _ _ Hsave) as (_ & _ & Hstored).
      destruct (Hstored _ _ _ _ Hin) as (Hd & -> & -> & Hstore & Hrange).
      split; [exact Hbeat|]. exists mv, info, raw.
      repeat split; auto; try (unfold defaultMaxRetries in Hrange; lia).
      apply andb_false_iff in Hkept as [Hvalid|Hscore].
      * left. now apply negb_false_iff.
      * right. now apply Z.ltb_ge.
    + destruct Hfinal as [->|[error' ->]];
        [now apply not_elem_of_nil in Hin
        |apply list_elem_of_singleton in Hin; discriminate].
Qed.

(** Every topic the consumer subscribes to is recognised by the router, as
    bike 000001 with a sensor type of the table, so none of its messages is
    dead-lettered for its topic; and a message on one of the control topics
    has no effect once the heartbeat resolved. *)
Theorem subscribed_topics_are_routed topic message :
  topic ∈ topics →
  (∃ topicInfo entry,
     parseEnhancedKafkaTopic topic = Some topicInfo
     ∧ deviceId topicInfo = "000001"
     ∧ deviceConfig topicInfo = OwnEntry entry
     ∧ (isControlTopic topicInfo = true → heartbeat env = None →
        eachMessage rt env topic message = []))
  ∧ deadLetteredAs INVALID_TOPIC_FORMAT (eachMessage rt env topic message) = false.
Proof.
  intros Htopic.
  assert (∃ topicInfo entry,
            parseEnhancedKafkaTopic topic = Some topicInfo
            ∧ deviceId topicInfo = "000001"
            ∧ deviceConfig topicInfo = OwnEntry entry) as (info & entry & Hp & Hid & Hcfg).
  { unfold topics in Htopic.
    repeat (apply elem_of_cons in Htopic as [->|Htopic];
            [eexists _, _; repeat split; reflexivity|]).
    now apply not_elem_of_nil in Htopic. }
  split.
  - exists info, entry. repeat split; auto.
    intros Hcontrol Hbeat. unfold eachMessage. rewrite Hbeat, Hp, Hcontrol.
    now destruct (value message) as [[|]|].
  - unfold eachMessage. rewrite Hp.
    destruct (heartbeat env); [reflexivity|].
    destruct (value message) as [[|c text]|]; try reflexivity.
    destruct (isControlTopic info); [reflexivity|].
    destruct (JSON_parse rt (String c text)) as [parseError|raw]; [reflexivity|].
    destruct (validateAndSave_shape topic message info raw)
      as (reported & effects & final & -> & Hreported & Hfinal & Heffects).
    rewrite !deadLetteredAs_app.
    assert (deadLetteredAs INVALID_TOPIC_FORMAT effects = false) as ->.
    { destruct Heffects as [->|(_ & result & Hsave)]; [reflexivity|].
      apply deadLetteredAs_deadLettered.
      now destruct (save_default_result _ _ _ _ _ _ _ Hsave). }
    destruct Hreported as [->| ->], Hfinal as [->|[error' ->]]; reflexivity.
Qed.

End ConsumerProperties.

Section ConsumerExamples.
Import Feed.


Lemma stored_reading_was_validated_witness :
  heartbeat Examples.storeUp = None ∧ store Examples.storeUp 1 = None.
Proof.
  destruct (stored_reading_was_validated Examples.runtime Examples.storeUp
              Examples.heartrateTopic (Examples.messageOf Examples.completeText)
              1 Examples.reading "000001" (Some heartRate))
    as (Hbeat & _ & _ & _ & _ & _ & _ & _ & _ & _ & _ & _ & Hstore & _).
  - vm_compute. constructor.
  - split; [exact Hbeat | exact Hstore].
Defined.

Lemma subscribed_topics_are_routed_witness :
  deadLetteredAs INVALID_TOPIC_FORMAT
    (eachMessage Examples.runtime Examples.storeUp "bike.000001.fan.control"
       (Examples.messageOf Examples.completeText)) = false.
Proof.
  destruct (subscribed_topics_are_routed Examples.runtime Examples.storeUp
              "bike.000001.fan.control" (Examples.messageOf Examples.completeText))
    as [_ Hnever].
  - apply list_elem_of_In. vm_compute. tauto.
  - exact Hnever.
Defined.

End ConsumerExamples.

(** * Further properties of the distribution bridge *)

Section BridgeProperties.
Import Bridge.
Context (rt : JSRuntime).

Lemma fanOut_registry st messageData now writeThrows key :
  activeConnections (fanOut st messageData now writeThrows).1 !! key
  = c ← activeConnections st !! key;
    let c' := refresh (roomName (msg_deviceId messageData) (msg_deviceType messageData))
                now c in
    if JS.startsWith key "sse_"
    then if writeThrows key then None else Some (touch now c')
    else Some c'.
Proof.
  unfold fanOut. cbn [fst activeConnections].
  rewrite map_lookup_imap, lookup_fmap.
  now destruct (activeConnections st !! key).
Qed.

(** A connection that was just served is not reaped by a sweep within five
    minutes: a stream connection whose write went through, and a websocket
    subscribed to the room of the message, have their activity set to the
    time of the message and are still registered after the sweep. *)
Theorem served_connections_survive_the_sweep st topic value now heartbeatFails
    generatedId writeThrows messageData now' :
  routed rt topic value now heartbeatFails generatedId = Some messageData →
  now' - now ≤ staleThreshold →
  let room := roomName (msg_deviceId messageData) (msg_deviceType messageData) in
  let served :=
    (step rt st (KafkaMessage topic value now heartbeatFails generatedId writeThrows)).1 in
  let swept := (step rt served (ReaperTick now')).1 in
  (∀ key c,
     activeConnections st !! key = Some c →
     JS.startsWith key "sse_" = true → writeThrows key = false →
     ∃ c', activeConnections swept !! key = Some c' ∧ lastActivity c' = now)
  ∧ (∀ key c,
       activeConnections st !! key = Some c →
       JS.startsWith key "sse_" = false →
       type c = websocket → room ∈ subscriptions c →
       ∃ c', activeConnections swept !! key = Some c' ∧ lastActivity c' = now).
Proof.
  intros Hrouted Hsoon room served swept. subst swept served.
  cbn [step]. rewrite Hrouted. cbn [fst activeConnections].
  split.
  - intros key c Hkey Hsse Hwrite. eexists. split.
    + apply reap_lookup. split.
      * rewrite fanOut_registry, Hkey. cbn. rewrite Hsse, Hwrite. reflexivity.
      * cbn [touch lastActivity]. lia.
    + reflexivity.
  - intros key c Hkey Hsse Hws Hsub. eexists. split.
    + apply reap_lookup. split.
      * rewrite fanOut_registry, Hkey. cbn. rewrite Hsse. reflexivity.
      * unfold refresh, isWebsocket. rewrite Hws, bool_decide_eq_true_2 by exact Hsub.
        cbn. lia.
    + unfold refresh, isWebsocket. rewrite Hws, bool_decide_eq_true_2 by exact Hsub.
      reflexivity.
Qed.

Lemma fanOut_writes_inv st messageData now writeThrows connection' messageData' threw :
  SseWrite connection' messageData' threw ∈ (fanOut st messageData now writeThrows).2 →
  messageData' = messageData
  ∧ ∃ key c,
      activeConnections st !! key = Some c
      ∧ JS.startsWith key "sse_" = true
      ∧ connection' = connection c
      ∧ threw = writeThrows key.
Proof.
  unfold fanOut. cbn [snd]. rewrite elem_of_app, !list_elem_of_fmap.
  intros [(sid & [=] & _)|([key c'] & [= -> -> ->] & Hin)].
  apply sseEntries_elem in Hin as [Hkey Hsse].
  rewrite lookup_fmap in Hkey.
  destruct (activeConnections st !! key) as [c|] eqn:Hc; [|discriminate].
  injection Hkey as <-. split; [reflexivity|].
  exists key, c. repeat split; auto.
  cbn [snd]. unfold refresh. now destruct (_ && _).
Qed.

(** One step keeps the registry's subscription lists within the rooms. *)
Lemma step_subscriptionsOk st input :
  subscriptionsOk st → subscriptionsOk (step rt st input).1.
Proof.
  intros Hok. unfold subscriptionsOk in *.
  destruct input as [request now|openedAt|socketId now|socketId deviceId deviceTypes now
                    |socketId|now|topic value now heartbeatFails generatedId writeThrows];
    cbn [step].
  - cbn [fst activeConnections rooms]. intros key c.
    rewrite lookup_insert_Some. intros [[<- <-]|[_ Hkey]]; [discriminate|].
    now apply Hok.
  - cbn [fst activeConnections rooms]. intros key c.
    rewrite lookup_delete_Some. intros [_ Hkey]. now apply Hok.
  - cbn [fst activeConnections rooms]. intros key c.
    rewrite lookup_insert_Some. intros [[<- <-]|[Hne Hkey]] Hws.
    + rewrite lookup_insert_eq. eexists. split; [reflexivity|]. cbn. set_solver.
    + rewrite lookup_insert_ne by exact Hne. now apply Hok.
  - destruct (rooms st !! socketId) as [joined|] eqn:Hjoined; [|exact Hok].
    destruct (activeConnections st !! socketId) as [info|] eqn:Hinfo; [|exact Hok].
    cbn [fst activeConnections rooms]. intros key c.
    rewrite lookup_insert_Some. intros [[<- <-]|[Hne Hkey]] Hws.
    + rewrite lookup_insert_eq. eexists. split; [reflexivity|].
      destruct (Hok _ _ Hinfo Hws) as (joined' & Hj & Hsub).
      assert (joined' = joined) as -> by congruence.
      cbn [subscribe subscriptions]. set_solver.
    + rewrite lookup_insert_ne by exact Hne. now apply Hok.
  - destruct (rooms st !! socketId) as [joined|] eqn:Hjoined; [|exact Hok].
    cbn [fst activeConnections rooms]. intros key c.
    rewrite lookup_delete_Some. intros [Hne Hkey] Hws.
    rewrite lookup_delete_ne by exact Hne. now apply Hok.
  - cbn [fst activeConnections rooms]. intros key c Hkey.
    apply reap_lookup in Hkey as [Hkey _]. now apply Hok.
  - destruct (routed rt topic value now heartbeatFails generatedId) as [md|];
      [|exact Hok].
    intros key c. rewrite fanOut_registry.
    destruct (activeConnections st !! key) as [c0|] eqn:Hkey; [|discriminate].
    cbn. intros Hc Hws.
    pose proof (refresh_fields (roomName (msg_deviceId md) (msg_deviceType md)) now c0)
      as (_ & Htype & _ & Hsubs).
    assert (type c = type c0 ∧ subscriptions c = subscriptions c0) as [Ht Hs].
    { destruct (JS.startsWith key "sse_"); [destruct (writeThrows key)|];
        try discriminate; injection Hc as <-; cbn [touch type subscriptions]; auto. }
    rewrite Ht in Hws. rewrite Hs. now apply Hok.
Qed.

Lemma run_subscriptionsOk history :
  subscriptionsOk (run rt initial history).1.
Proof.
  induction history as [|input history IH] using rev_ind.
  - intros key c Hkey. cbn in Hkey. rewrite lookup_empty in Hkey. discriminate.
  - rewrite run_snoc. now apply step_subscriptionsOk.
Qed.

(** Bookkeeping and delivery agree: after any history of events, a
    websocket of the registry whose entry lists the room of a message is
    sent that message (and is the one whose activity the fan-out
    refreshes). *)
Theorem listed_subscriber_is_served history st topic value now heartbeatFails generatedId
    writeThrows messageData key c :
  (run rt initial history).1 = st →
  routed rt topic value now heartbeatFails generatedId = Some messageData →
  activeConnections st !! key = Some c →
  type c = websocket →
  roomName (msg_deviceId messageData) (msg_deviceType messageData) ∈ subscriptions c →
  EmitSensorData key
    (roomName (msg_deviceId messageData) (msg_deviceType messageData)) messageData
  ∈ (step rt st (KafkaMessage topic value now heartbeatFails generatedId writeThrows)).2.
Proof.
  intros <- Hrouted Hkey Hws Hsub.
  destruct (run_subscriptionsOk history key c Hkey Hws) as (joined & Hjoined & Hincl).
  cbn [step]. rewrite Hrouted. apply fanOut_emits.
  split; [reflexivity|]. split; [reflexivity|]. exists joined. split; [assumption|].
  now apply Hincl.
Qed.

(** A step other than the socket's disconnect (or a new connection under
    its id) leaves the socket in the rooms it has joined. *)
Lemma step_keeps_rooms st input socketId joined :
  keepsSocket socketId input →
  rooms st !! socketId = Some joined →
  ∃ joined', rooms (step rt st input).1 !! socketId = Some joined' ∧ joined ⊆ joined'.
Proof.
  intros Hkeeps Hjoined.
  destruct input as [request now|openedAt|socketId' now|socketId' deviceId deviceTypes now
                    |socketId'|now|topic value now heartbeatFails generatedId writeThrows];
    cbn [step keepsSocket] in *.
  - exists joined. auto.
  - exists joined. auto.
  - exists joined. cbn [fst rooms]. rewrite lookup_insert_ne by exact Hkeeps. auto.
  - destruct (rooms st !! socketId') as [joined0|] eqn:Hjoined0; [|exists joined; auto].
    destruct (activeConnections st !! socketId') as [info|]; [|exists joined; auto].
    cbn [fst rooms]. destruct (decide (socketId' = socketId)) as [->|Hne].
    + rewrite lookup_insert_eq. eexists. split; [reflexivity|].
      assert (joined0 = joined) as -> by congruence. set_solver.
    + rewrite lookup_insert_ne by exact Hne. exists joined. auto.
  - destruct (rooms st !! socketId') as [joined0|]; [|exists joined; auto].
    cbn [fst rooms]. rewrite lookup_delete_ne by exact Hkeeps. exists joined. auto.
  - exists joined. auto.
  - destruct (routed rt topic value now heartbeatFails generatedId);
      exists joined; auto.
Qed.

Lemma run_keeps_rooms history st socketId joined :
  Forall (keepsSocket socketId) history →
  rooms st !! socketId = Some joined →
  ∃ joined', rooms (run rt st history).1 !! socketId = Some joined' ∧ joined ⊆ joined'.
Proof.
  induction history as [|input history IH] using rev_ind; intros Hkeeps Hjoined.
  - exists joined. auto.
  - apply Forall_app in Hkeeps as [Hkeeps Hkeep]. rewrite Forall_singleton in Hkeep.
    destruct (IH Hkeeps Hjoined) as (joined1 & Hjoined1 & Hincl1).
    rewrite run_snoc.
    destruct (step_keeps_rooms _ _ _ _ Hkeep Hjoined1) as (joined2 & Hjoined2 & Hincl2).
    exists joined2. split; [assumption|]. set_solver.
Qed.

(** A subscription lasts until the disconnect: once a registered socket has
    subscribed to a device and type, whatever happens afterwards short of
    its disconnect (other subscriptions of the socket, other clients,
    sweeps, messages), a message of that device and type is emitted to it. *)
Theorem subscription_lasts_until_disconnect st socketId connectionInfo joined deviceId
    deviceTypes type now later topic value now' heartbeatFails generatedId writeThrows
    messageData :
  activeConnections st !! socketId = Some connectionInfo →
  rooms st !! socketId = Some joined →
  type ∈ default DEVICE_TYPES deviceTypes →
  Forall (keepsSocket socketId) later →
  routed rt topic value now' heartbeatFails generatedId = Some messageData →
  msg_deviceId messageData = deviceId →
  msg_deviceType messageData = type →
  let subscribed := (step rt st (SocketSubscribe socketId deviceId deviceTypes now)).1 in
  EmitSensorData socketId (roomName deviceId type) messageData
  ∈ (step rt (run rt subscribed later).1
       (KafkaMessage topic value now' heartbeatFails generatedId writeThrows)).2.
Proof.
  intros Hinfo Hjoined Htype Hkeeps Hrouted Hd Ht subscribed.
  assert (∃ joined0, rooms subscribed !! socketId = Some joined0
                     ∧ roomName deviceId type ∈ joined0) as (joined0 & Hjoined0 & Hroom).
  { subst subscribed. cbn [step]. rewrite Hjoined, Hinfo. cbn [fst rooms].
    rewrite lookup_insert_eq. eexists. split; [reflexivity|].
    apply elem_of_union. right.
    apply elem_of_list_to_set, list_elem_of_fmap. eauto. }
  destruct (run_keeps_rooms later _ _ _ Hkeeps Hjoined0) as (joined1 & Hjoined1 & Hincl).
  cbn [step]. rewrite Hrouted. apply fanOut_emits.
  rewrite Hd, Ht. split; [reflexivity|]. split; [reflexivity|].
  exists joined1. split; [assumption|]. now apply Hincl.
Qed.

(** Two stream clients that open [/events] in the same millisecond get the
    same connection id: the second entry replaces the first, so the first
    client is written no message, and the close of either request removes
    the entry that serves the second. *)
Theorem streams_opened_in_one_millisecond_collide st request1 request2 now :
  request1 ≠ request2 →
  (∀ key c, activeConnections st !! key = Some c →
            connection c ≠ ResponseHandle request1) →
  let st' := (run rt st [HttpEvents request1 now; HttpEvents request2 now]).1 in
  (∃ c, activeConnections st' !! sseId now = Some c
        ∧ connection c = ResponseHandle request2)
  ∧ (∀ topic value now' heartbeatFails generatedId writeThrows messageData threw,
       SseWrite (ResponseHandle request1) messageData threw
       ∉ (step rt st'
            (KafkaMessage topic value now' heartbeatFails generatedId writeThrows)).2)
  ∧ activeConnections (step rt st' (RequestClose now)).1 !! sseId now = None.
Proof.
  intros Hne Hfresh st'. subst st'. cbn [run step fst activeConnections rooms].
  split; [|split].
  - rewrite lookup_insert_eq. eexists. split; reflexivity.
  - intros topic value now' heartbeatFails generatedId writeThrows messageData threw.
    destruct (routed rt topic value now' heartbeatFails generatedId) as [md|];
      [|apply not_elem_of_nil].
    intros Hin. apply fanOut_writes_inv in Hin as (_ & key & c & Hkey & _ & Hc & _).
    cbn [activeConnections] in Hkey.
    apply lookup_insert_Some in Hkey as [[_ <-]|[Hother Hkey]].
    + cbn in Hc. injection Hc as Hc. contradiction.
    + apply lookup_insert_Some in Hkey as [[Hsame _]|[_ Hkey]].
      * contradiction.
      * now apply (Hfresh key c).
  - apply lookup_delete_eq.
Qed.

Lemma split_segment s rest :
  JS.dotFree s = true →
  JS.split "." (s +:+ String "." rest) = s :: JS.split "." rest.
Proof.
  induction s as [|c s IH]; intros Hfree.
  - reflexivity.
  - cbn [JS.dotFree] in Hfree. apply andb_true_iff in Hfree as [Hc Hs].
    rewrite append_cons. cbn [JS.split].
    destruct (Ascii.eqb c "."); [discriminate|].
    now rewrite IH.
Qed.

Lemma split_dotFree s :
  JS.dotFree s = true → JS.split "." s = [s].
Proof.
  induction s as [|c s IH]; intros Hfree.
  - reflexivity.
  - cbn [JS.dotFree] in Hfree. apply andb_true_iff in Hfree as [Hc Hs].
    cbn [JS.split]. destruct (Ascii.eqb c "."); [discriminate|].
    now rewrite IH.
Qed.

Lemma split_topic deviceId type :
  JS.dotFree deviceId = true → JS.dotFree type = true →
  JS.split "." ("bike." +:+ deviceId +:+ "." +:+ type) = ["bike"; deviceId; type].
Proof.
  intros Hd Ht.
  change ("bike." +:+ deviceId +:+ "." +:+ type)
    with ("bike" +:+ String "." (deviceId +:+ String "." type)).
  rewrite split_segment by reflexivity.
  rewrite split_segment by exact Hd.
  now rewrite split_dotFree.
Qed.

Lemma split_topic_suffix deviceId type suffix :
  JS.dotFree deviceId = true → JS.dotFree type = true → JS.dotFree suffix = true →
  JS.split "." ("bike." +:+ deviceId +:+ "." +:+ type +:+ String "." suffix)
  = ["bike"; deviceId; type; suffix].
Proof.
  intros Hd Ht Hs.
  change ("bike." +:+ deviceId +:+ "." +:+ type +:+ String "." suffix)
    with ("bike" +:+ String "." (deviceId +:+ String "." (type +:+ String "." suffix))).
  rewrite split_segment by reflexivity.
  rewrite split_segment by exact Hd.
  rewrite split_segment by exact Ht.
  now rewrite split_dotFree.
Qed.

Lemma routed_isReport topic value now heartbeatFails generatedId messageData :
  routed rt topic value now heartbeatFails generatedId = Some messageData →
  msg_isReport messageData
  = match JS.split "." topic !! 3%nat with
    | Some s => String.eqb s "report"
    | None => false
    end.
Proof.
  unfold routed, buildMessageData.
  destruct heartbeatFails; [discriminate|].
  destruct value as [[|c text]|]; try discriminate.
  destruct (JSON_parse rt (String c text)) as [e|data]; [discriminate|].
  destruct (3 <=? length (JS.split "." topic))%nat; [|discriminate].
  destruct (JS.Get data "timestamp"); [discriminate|].
  destruct (JS.Get data "messageId"); [discriminate|].
  now intros [= <-].
Qed.

(** A reading and a report of one device and type go to the same room, the
    one a subscribe for that device and type joins; the envelope tells them
    apart by [isReport]. *)
Theorem report_topics_share_the_room deviceId type value now heartbeatFails generatedId
    messageData value' now' heartbeatFails' generatedId' messageData' :
  JS.dotFree deviceId = true →
  JS.dotFree type = true →
  routed rt ("bike." +:+ deviceId +:+ "." +:+ type) value now heartbeatFails generatedId
  = Some messageData →
  routed rt ("bike." +:+ deviceId +:+ "." +:+ type +:+ ".report") value' now'
    heartbeatFails' generatedId'
  = Some messageData' →
  roomName (msg_deviceId messageData) (msg_deviceType messageData)
  = roomName deviceId type
  ∧ roomName (msg_deviceId messageData') (msg_deviceType messageData')
    = roomName deviceId type
  ∧ msg_isReport messageData = false
  ∧ msg_isReport messageData' = true.
Proof.
  intros Hd Ht Hplain Hreport.
  pose proof (split_topic _ _ Hd Ht) as Hsplit.
  pose proof (split_topic_suffix _ _ "report" Hd Ht eq_refl) as Hsplit'.
  change (String "." "report") with ".report" in Hsplit'.
  destruct (routed_fields _ _ _ _ _ _ _ Hplain) as (_ & Hd1 & Ht1 & _).
  destruct (routed_fields _ _ _ _ _ _ _ Hreport) as (_ & Hd2 & Ht2 & _).
  apply routed_isReport in Hplain, Hreport.
  rewrite Hsplit in Hd1, Ht1, Hplain. rewrite Hsplit' in Hd2, Ht2, Hreport.
  cbn in Hd1, Ht1, Hd2, Ht2, Hplain, Hreport.
  rewrite Hd1, Ht1, Hd2, Ht2. auto.
Qed.

Lemma sensorTypes_dotFree type :
  type ∈ Feed.sensorTypes → JS.dotFree type = true.
Proof.
  intros Hin. apply list_elem_of_In in Hin. vm_compute in Hin.
  repeat (destruct Hin as [<-|Hin]; [reflexivity|]). destruct Hin.
Qed.

Lemma sensorTypes_lookup type :
  type ∈ Feed.sensorTypes → is_Some (Feed.lookupDeviceConfig type).
Proof.
  intros Hin. apply list_elem_of_In in Hin. vm_compute in Hin.
  repeat (destruct Hin as [<-|Hin]; [vm_compute; eauto|]). destruct Hin.
Qed.

Lemma topics_not_control :
  Forall (λ topic, JS.split "." topic !! 3%nat ≠ Some "control") topics.
Proof.
  apply Forall_forall. intros topic Hin. apply list_elem_of_In in Hin.
  vm_compute in Hin.
  repeat (destruct Hin as [<-|Hin]; [vm_compute; discriminate|]). destruct Hin.
Qed.

(** Control commands stop at the ingestion consumer: the record that
    [publish_control] sends for a device and a known sensor type lies on a
    topic the consumer's router recognises as a control topic of that
    device, the consumer's callback skips it without any effect, and the
    bridge itself does not subscribe to it. *)
Theorem control_commands_are_skipped env socketId deviceId controlType value command now
    sendFails topic payload message :
  JS.dotFree deviceId = true →
  controlType ∈ Feed.sensorTypes →
  Feed.heartbeat env = None →
  ProducerSend topic payload
  ∈ publish_control socketId deviceId controlType value command now sendFails →
  topic = "bike." +:+ deviceId +:+ "." +:+ controlType +:+ ".control"
  ∧ (∃ info, Feed.parseEnhancedKafkaTopic topic = Some info
             ∧ Feed.deviceId info = deviceId
             ∧ Feed.isControlTopic info = true)
  ∧ Feed.eachMessage rt env topic message = []
  ∧ topic ∉ topics.
Proof.
  intros Hd Htype Hbeat Hsend.
  assert (topic = controlTopic deviceId controlType) as ->.
  { unfold publish_control in Hsend. destruct sendFails.
    - apply list_elem_of_singleton in Hsend. discriminate.
    - apply elem_of_cons in Hsend as [[= -> _]|Hsend]; [reflexivity|].
      apply list_elem_of_singleton in Hsend. discriminate. }
  pose proof (sensorTypes_dotFree _ Htype) as Ht.
  pose proof (split_topic_suffix _ _ "control" Hd Ht eq_refl) as Hsplit.
  change (String "." "control") with ".control" in Hsplit.
  destruct (sensorTypes_lookup _ Htype) as [config Hconfig].
  assert (Feed.parseEnhancedKafkaTopic (controlTopic deviceId controlType)
          = Some {| Feed.deviceId := deviceId;
                    Feed.deviceType := Feed.configType config;
                    Feed.deviceConfig := config;
                    Feed.isControlTopic := true |}) as Hparse.
  { unfold Feed.parseEnhancedKafkaTopic, controlTopic. rewrite Hsplit.
    cbn [String.eqb Ascii.eqb Bool.eqb]. rewrite Hconfig. reflexivity. }
  split; [reflexivity|]. split; [|split].
  - eexists. split; [exact Hparse|]. split; reflexivity.
  - unfold Feed.eachMessage. rewrite Hbeat.
    destruct (Feed.value message) as [[|c text]|]; try reflexivity.
    now rewrite Hparse.
  - intros Hin. pose proof topics_not_control as Hnot.
    rewrite Forall_forall in Hnot. apply (Hnot _ Hin).
    unfold controlTopic. now rewrite Hsplit.
Qed.

End BridgeProperties.

Section BridgeExamples.
Import Bridge.

Lemma served_connections_survive_the_sweep_witness :
  (∃ c, activeConnections
          (step Examples.runtime
             (step Examples.runtime (run Examples.runtime initial Examples.quietStart).1
                (KafkaMessage Examples.heartrateTopic (Some Examples.completeText) 3000
                   false "msg_3000_k3x9q2m7p" Examples.noWriteFailure)).1
             (ReaperTick 303000)).1 !! sseId 2000 = Some c
        ∧ lastActivity c = 3000)
  ∧ (∃ c, activeConnections
            (step Examples.runtime
               (step Examples.runtime (run Examples.runtime initial Examples.quietStart).1
                  (KafkaMessage Examples.heartrateTopic (Some Examples.completeText) 3000
                     false "msg_3000_k3x9q2m7p" Examples.noWriteFailure)).1
               (ReaperTick 303000)).1 !! Examples.socketA = Some c
          ∧ lastActivity c = 3000).
Proof.
  destruct (served_connections_survive_the_sweep Examples.runtime
              (run Examples.runtime initial Examples.quietStart).1
              Examples.heartrateTopic (Some Examples.completeText) 3000 false
              "msg_3000_k3x9q2m7p" Examples.noWriteFailure
              {| msg_topic := Examples.heartrateTopic;
                 msg_deviceId := "000001";
                 msg_deviceType := "heartrate";
                 msg_isReport := false;
                 msg_data := Examples.complete;
                 msg_timestamp := inr 3000;
                 msg_messageId := JString "msg_3000_k3x9q2m7p";
                 msg_receivedAt := 3000 |} 303000) as [Hstream Hsocket].
  - vm_compute. reflexivity.
  - unfold staleThreshold. lia.
  - split.
    + apply (Hstream (sseId 2000)
               {| id := sseId 2000; type := sse; connectedAt := 2000;
                  lastActivity := 2000; subscriptions := ∅; deviceId := None;
                  connection := ResponseHandle 1 |});
        vm_compute; reflexivity.
    + apply (Hsocket Examples.socketA
               {| id := Examples.socketA; type := websocket; connectedAt := 0;
                  lastActivity := 1000;
                  subscriptions := ∅ ∪ list_to_set [roomName "000001" "heartrate"];
                  deviceId := Some "000001";
                  connection := SocketHandle Examples.socketA |}).
      * vm_compute. reflexivity.
      * vm_compute. reflexivity.
      * reflexivity.
      * apply (bool_decide_unpack _). vm_compute. exact I.
Defined.

Lemma listed_subscriber_is_served_witness :
  EmitSensorData Examples.socketA "device_000001_heartrate"
    {| msg_topic := Examples.heartrateTopic;
       msg_deviceId := "000001";
       msg_deviceType := "heartrate";
       msg_isReport := false;
       msg_data := Examples.complete;
       msg_timestamp := inr 3000;
       msg_messageId := JString "msg_3000_k3x9q2m7p";
       msg_receivedAt := 3000 |}
  ∈ (step Examples.runtime (run Examples.runtime initial Examples.quietStart).1
       (KafkaMessage Examples.heartrateTopic (Some Examples.completeText) 3000 false
          "msg_3000_k3x9q2m7p" Examples.noWriteFailure)).2.
Proof.
  apply (listed_subscriber_is_served Examples.runtime Examples.quietStart
           (run Examples.runtime initial Examples.quietStart).1
           Examples.heartrateTopic (Some Examples.completeText) 3000 false
           "msg_3000_k3x9q2m7p" Examples.noWriteFailure
           {| msg_topic := Examples.heartrateTopic;
              msg_deviceId := "000001";
              msg_deviceType := "heartrate";
              msg_isReport := false;
              msg_data := Examples.complete;
              msg_timestamp := inr 3000;
              msg_messageId := JString "msg_3000_k3x9q2m7p";
              msg_receivedAt := 3000 |}
           Examples.socketA
           {| id := Examples.socketA; type := websocket; connectedAt := 0;
              lastActivity := 1000;
              subscriptions := ∅ ∪ list_to_set [roomName "000001" "heartrate"];
              deviceId := Some "000001";
              connection := SocketHandle Examples.socketA |}).
  - reflexivity.
  - vm_compute. reflexivity.
  - vm_compute. reflexivity.
  - reflexivity.
  - apply (bool_decide_unpack _). vm_compute. exact I.
Defined.

Lemma subscription_lasts_until_disconnect_witness :
  EmitSensorData Examples.socketA (roomName "000001" "heartrate")
    {| msg_topic := Examples.heartrateTopic;
       msg_deviceId := "000001";
       msg_deviceType := "heartrate";
       msg_isReport := false;
       msg_data := Examples.complete;
       msg_timestamp := inr 400500;
       msg_messageId := JString "msg_400500_k3x9q2m7p";
       msg_receivedAt := 400500 |}
  ∈ (step Examples.runtime
       (run Examples.runtime
          (step Examples.runtime (run Examples.runtime initial Examples.promptStart).1
             (SocketSubscribe Examples.socketA "000001" None 500)).1
          [HttpEvents 1 2000; ReaperTick Examples.sweepTime;
           SocketSubscribe Examples.socketA "000002" (Some ["speed"]) 400100]).1
       Examples.lateMessage).2.
Proof.
  apply (subscription_lasts_until_disconnect Examples.runtime
           (run Examples.runtime initial Examples.promptStart).1 Examples.socketA
           {| id := Examples.socketA; type := websocket; connectedAt := 0;
              lastActivity := 0; subscriptions := ∅; deviceId := None;
              connection := SocketHandle Examples.socketA |}
           {[Examples.socketA]} "000001" None "heartrate" 500).
  - vm_compute. reflexivity.
  - vm_compute. reflexivity.
  - apply list_elem_of_In. vm_compute. auto.
  - repeat constructor.
  - vm_compute. reflexivity.
  - reflexivity.
  - reflexivity.
Defined.

Lemma streams_opened_in_one_millisecond_collide_witness :
  (∃ c, activeConnections
          (run Examples.runtime initial [HttpEvents 1 2000; HttpEvents 2 2000]).1
          !! sseId 2000 = Some c
        ∧ connection c = ResponseHandle 2)
  ∧ activeConnections
      (step Examples.runtime
         (run Examples.runtime initial [HttpEvents 1 2000; HttpEvents 2 2000]).1
         (RequestClose 2000)).1 !! sseId 2000 = None.
Proof.
  destruct (streams_opened_in_one_millisecond_collide Examples.runtime initial
              1%nat 2%nat 2000) as (Hentry & _ & Hclosed).
  - discriminate.
  - intros key c Hkey. cbn in Hkey. rewrite lookup_empty in Hkey. discriminate.
  - split; assumption.
Defined.

Lemma report_topics_share_the_room_witness :
  msg_isReport
    {| msg_topic := "bike.000001.heartrate";
       msg_deviceId := "000001";
       msg_deviceType := "heartrate";
       msg_isReport := false;
       msg_data := Examples.complete;
       msg_timestamp := inr 3000;
       msg_messageId := JString "msg_3000_k3x9q2m7p";
       msg_receivedAt := 3000 |} = false
  ∧ msg_isReport
      {| msg_topic := "bike.000001.heartrate.report";
         msg_deviceId := "000001";
         msg_deviceType := "heartrate";
         msg_isReport := true;
         msg_data := Examples.complete;
         msg_timestamp := inr 4000;
         msg_messageId := JString "msg_4000_k3x9q2m7p";
         msg_receivedAt := 4000 |} = true.
Proof.
  destruct (report_topics_share_the_room Examples.runtime "000001" "heartrate"
              (Some Examples.completeText) 3000 false "msg_3000_k3x9q2m7p"
              {| msg_topic := "bike.000001.heartrate";
                 msg_deviceId := "000001";
                 msg_deviceType := "heartrate";
                 msg_isReport := false;
                 msg_data := Examples.complete;
                 msg_timestamp := inr 3000;
                 msg_messageId := JString "msg_3000_k3x9q2m7p";
                 msg_receivedAt := 3000 |}
              (Some Examples.completeText) 4000 false "msg_4000_k3x9q2m7p"
              {| msg_topic := "bike.000001.heartrate.report";
                 msg_deviceId := "000001";
                 msg_deviceType := "heartrate";
                 msg_isReport := true;
                 msg_data := Examples.complete;
                 msg_timestamp := inr 4000;
                 msg_messageId := JString "msg_4000_k3x9q2m7p";
                 msg_receivedAt := 4000 |}) as (_ & _ & Hplain & Hreport).
  - reflexivity.
  - reflexivity.
  - vm_compute. reflexivity.
  - vm_compute. reflexivity.
  - split; assumption.
Defined.

Lemma control_commands_are_skipped_witness :
  Feed.eachMessage Examples.runtime Examples.storeUp "bike.000001.fan.control"
    (Examples.messageOf Examples.completeText) = []
  ∧ "bike.000001.fan.control" ∉ topics.
Proof.
  destruct (control_commands_are_skipped Examples.runtime Examples.storeUp
              Examples.socketA "000001" "fan" 50%float "set" 1700000000000%float false
              "bike.000001.fan.control"
              {| ctl_value := 50%float;
                 ctl_unitName := getUnitForControlType "fan";
                 ctl_timestamp := (1700000000000 / 1000)%float;
                 ctl_command := "set" |}
              (Examples.messageOf Examples.completeText))
    as (_ & _ & Hskipped & Hforeign).
  - reflexivity.
  - apply list_elem_of_In. vm_compute. auto 10.
  - reflexivity.
  - constructor.
  - split; assumption.
Defined.

End BridgeExamples.
